(** * CelesteBot: account linking, pending verifications and notification routing

    A shallow embedding of [data_manager.py] (class [DataManager]), of the
    parts of [qq_bot.py] that drive it (the message handlers of
    [MessageHandler], the webhook handlers of [WebhookHandler], the notice
    and group-list handlers of [OneBotWebSocket], the roster callbacks of
    [QQBot]) and of the loop of [backup_scheduler.py], with the constants of
    [config_example.py].

    Conventions.
    - A Python [dict] keyed by strings is a [gmap string _]; [d.get(k)] is
      [d !! k], [d[k] = v] is [<[k:=v]> d], [d.pop(k, None)] is [delete k d].
    - The persisted JSON document is a record whose fields are optional: a
      top-level key may be missing from the file (the code guards every access
      with [data.get(key, default)] or [if key not in data]).
    - [time.time()] is a parameter of the operation that reads the clock; time
      stamps are exact rationals, so floating-point rounding is not modelled.
    - [random.randint] is a parameter too: the drawn integer is an argument.
    - [with self.lock:] blocks are the [WithLock] nodes of a small program
      type, so the number and order of lock acquisitions of every method are
      part of the model.
    - A Python string is held as the bytes of its UTF-8 encoding; calls to the
      chat client are returned as values of [Outgoing] instead of being
      sent. *)

From Stdlib Require Import QArith ZArith String Ascii Lqa Sorted.
From stdpp Require Import gmap strings list fin_maps pretty.

Open Scope string_scope.

(** ** config_example.py *)

Definition VERIFICATION_TIMEOUT : Q := 300.
Definition BIND_COOLDOWN : Q := 60.

(** ** Python primitives used by the code *)

(** [bool(s)] for a string: only the empty string is falsy. *)
Definition str_truthy (s : string) : bool :=
  match s with
  | EmptyString => false
  | String _ _ => true
  end.

(** [x < y] on time stamps. *)
Definition Qltb (x y : Q) : bool :=
  (Qnum x * QDen y <? Qnum y * QDen x)%Z.

(** [int(x)] on a float: truncation toward zero. *)
Definition py_int (x : Q) : Z := Z.quot (Qnum x) (Zpos (Qden x)).

(** [str(n)] on an integer. *)
Definition py_str (n : Z) : string := pretty n.

(** [l.remove(x)]: drops the first occurrence (the code calls it only when
    [x in l]). *)
Fixpoint list_remove (x : string) (l : list string) : list string :=
  match l with
  | [] => []
  | y :: l' => if bool_decide (x = y) then l' else y :: list_remove x l'
  end.

(** ** The persisted document *)

(** One value of ["pending_bindings"]. [request_time] is read with
    [pending.get("request_time", 0)], the other keys with [pending[...]]. An
    entry is a dictionary with at least three keys, hence truthy: [if pending]
    and [if not pending] test its presence. *)
Record Pending : Type := mkPending {
  pb_username : string;
  pb_code : string;
  pb_expire_time : Q;
  pb_request_time : option Q
}.

Record Document : Type := mkDocument {
  bindings : option (gmap string string);
  user_qq_map : option (gmap string string);
  notifications : option (gmap string string);
  groups : option (list string);
  pending_bindings : option (gmap string Pending)
}.

(** The dictionary [{}] that [_load] falls back to. *)
Definition empty_document : Document :=
  {| bindings := None; user_qq_map := None; notifications := None;
     groups := None; pending_bindings := None |}.

(** The dictionary [_ensure_file] writes when the file does not exist. *)
Definition initial_document : Document :=
  {| bindings := Some ∅; user_qq_map := Some ∅; notifications := Some ∅;
     groups := Some []; pending_bindings := Some ∅ |}.

(** What is found at [self.filepath]: nothing, text that [json.load] rejects
    with [JSONDecodeError], or a JSON object. *)
Inductive File : Type :=
| Missing
| Malformed
| Json (data : Document).

(** [DataManager._load] *)
Definition _load (f : File) : Document :=
  match f with
  | Json data => data
  | Missing | Malformed => empty_document
  end.

(** [DataManager._save] writes through [open(self.filepath, 'w')] and
    [json.dump]: the open truncates the data file itself, the dump then writes
    the text of [data] into it. *)
Inductive FsStep : Type :=
| OpenTruncate
| Dump (data : Document).

Definition fs_step (s : FsStep) (f : File) : File :=
  match s with
  | OpenTruncate => Malformed
  | Dump data => Json data
  end.

Definition _save_steps (data : Document) : list FsStep :=
  [OpenTruncate; Dump data].

Definition fs_run (steps : list FsStep) (f : File) : File :=
  foldl (λ f s, fs_step s f) f steps.

(** The file once [_save] has returned. *)
Definition _save (data : Document) (f : File) : File :=
  fs_run (_save_steps data) f.

(** The file a reader finds when the process dies after [k] steps. *)
Definition crash_after (k : nat) (steps : list FsStep) (f : File) : File :=
  fs_run (take k steps) f.

(** ** Programs: sequences of critical sections *)

Inductive Prog (A : Type) : Type :=
| Ret (a : A)
| WithLock {B : Type} (body : File → File * B) (k : B → Prog A).
Arguments Ret {A} a.
Arguments WithLock {A B} body k.

Fixpoint bind_prog {A C : Type} (g : A → Prog C) (p : Prog A) : Prog C :=
  match p with
  | Ret a => g a
  | WithLock body k => WithLock body (λ b, bind_prog g (k b))
  end.

#[global] Instance prog_ret : MRet Prog := @Ret.
#[global] Instance prog_bind : MBind Prog := @bind_prog.

(** Running a program with no other thread in between. *)
Fixpoint run {A : Type} (p : Prog A) (f : File) : File * A :=
  match p with
  | Ret a => (f, a)
  | WithLock body k => let '(f', b) := body f in run (k b) f'
  end.

(** How many times [self.lock] is taken along that run. *)
Fixpoint acquisitions {A : Type} (p : Prog A) (f : File) : nat :=
  match p with
  | Ret _ => 0
  | WithLock body k => let '(f', b) := body f in S (acquisitions (k b) f')
  end.

(** One scheduling step: the next critical section of [p], if any. *)
Definition step {A : Type} (p : Prog A) (f : File) : Prog A * File :=
  match p with
  | Ret a => (Ret a, f)
  | WithLock body k => let '(f', b) := body f in (k b, f')
  end.

(** Two threads under a schedule ([true]: the first thread takes the lock
    next). When the schedule ends both run to completion, first then second. *)
Fixpoint interleave {A C : Type} (sched : list bool) (p : Prog A) (q : Prog C)
    (f : File) : File * A * C :=
  match sched with
  | [] => let '(f1, a) := run p f in let '(f2, c) := run q f1 in (f2, a, c)
  | true :: sched' => let '(p', f') := step p f in interleave sched' p' q f'
  | false :: sched' => let '(q', f') := step q f in interleave sched' p q' f'
  end.

(** ** data_manager.py: class DataManager *)

(** [data.get("bindings", {})] and its siblings. *)
Definition bindings_of (data : Document) : gmap string string :=
  default ∅ (bindings data).
Definition user_qq_map_of (data : Document) : gmap string string :=
  default ∅ (user_qq_map data).
Definition notifications_of (data : Document) : gmap string string :=
  default ∅ (notifications data).
Definition groups_of (data : Document) : list string :=
  default [] (groups data).
Definition pending_bindings_of (data : Document) : gmap string Pending :=
  default ∅ (pending_bindings data).

(** [_ensure_file], called by [__init__]. *)
Definition _ensure_file (f : File) : File :=
  match f with
  | Missing => _save initial_document f
  | _ => f
  end.

Definition get_binding (qq_number : string) : Prog (option string) :=
  WithLock (λ f, let data := _load f in (f, bindings_of data !! qq_number)) Ret.

Definition get_qq_by_username (username : string) : Prog (option string) :=
  WithLock (λ f, let data := _load f in (f, user_qq_map_of data !! username)) Ret.

(** The body of [set_binding] between [_load] and [_save]. *)
Definition set_binding_data (qq_number username : string) (data : Document)
    : Document :=
  let bindings0 := bindings_of data in
  let user_qq_map0 := user_qq_map_of data in
  let old_username := bindings0 !! qq_number in
  let user_qq_map1 :=
    match old_username with
    | Some o => if str_truthy o then delete o user_qq_map0 else user_qq_map0
    | None => user_qq_map0
    end in
  let old_qq := user_qq_map1 !! username in
  let bindings1 :=
    match old_qq with
    | Some o => if str_truthy o then delete o bindings0 else bindings0
    | None => bindings0
    end in
  {| bindings := Some (<[qq_number := username]> bindings1);
     user_qq_map := Some (<[username := qq_number]> user_qq_map1);
     notifications := notifications data;
     groups := groups data;
     pending_bindings := pending_bindings data |}.

Definition set_binding (qq_number username : string) : Prog unit :=
  WithLock (λ f, let data := _load f in
                 (_save (set_binding_data qq_number username data) f, tt)) Ret.

(** [now] is the value of [time.time()] inside the lock. *)
Definition check_bind_cooldown (qq_number : string) (now : Q) : Prog (bool * Z) :=
  WithLock (λ f,
    let data := _load f in
    let pending := pending_bindings_of data !! qq_number in
    (f, match pending with
        | Some p =>
            let request_time := default 0%Q (pb_request_time p) in
            let elapsed := (now - request_time)%Q in
            if Qltb elapsed BIND_COOLDOWN
            then (false, py_int (BIND_COOLDOWN - elapsed))
            else (true, 0%Z)
        | None => (true, 0%Z)
        end)) Ret.

(** The document after [data["pending_bindings"][qq_number] = entry]. *)
Definition with_pending (qq_number : string) (entry : Pending) (data : Document)
    : Document :=
  {| bindings := bindings data; user_qq_map := user_qq_map data;
     notifications := notifications data; groups := groups data;
     pending_bindings := Some (<[qq_number := entry]> (pending_bindings_of data)) |}.

(** The entry [create_pending_binding] stores. *)
Definition new_pending (username : string) (r : Z) (t_expire t_request : Q)
    : Pending :=
  {| pb_username := username; pb_code := py_str r;
     pb_expire_time := (t_expire + VERIFICATION_TIMEOUT)%Q;
     pb_request_time := Some t_request |}.

(** [r] is the integer [random.randint(100000, 999999)] returned; [t_expire]
    and [t_request] are the two successive readings of [time.time()]. The
    code, the expiry and the request time are computed before the lock is
    taken. *)
Definition create_pending_binding (qq_number username : string) (r : Z)
    (t_expire t_request : Q) : Prog string :=
  let code := py_str r in
  let expire_time := (t_expire + VERIFICATION_TIMEOUT)%Q in
  let request_time := t_request in
  WithLock (λ f,
    let data := _load f in
    (_save (with_pending qq_number
              {| pb_username := username; pb_code := code;
                 pb_expire_time := expire_time;
                 pb_request_time := Some request_time |} data) f, tt))
  (λ _, Ret code).

(** The four messages of [verify_binding]. *)
Definition MSG_NO_PENDING : string :=
  "没有待验证的绑定请求，请先使用 /bind 命令".
Definition MSG_EXPIRED : string :=
  "验证码已过期，请重新使用 /bind 命令".
Definition MSG_WRONG_CODE : string :=
  "验证码错误，请重新输入".
Definition MSG_BOUND (username : string) : string :=
  "绑定成功！已将 QQ 绑定到用户: " +:+ username.

(** [data["pending_bindings"].pop(qq_number, None)] on the loaded document. *)
Definition pop_pending (qq_number : string) (data : Document) : Document :=
  {| bindings := bindings data; user_qq_map := user_qq_map data;
     notifications := notifications data; groups := groups data;
     pending_bindings := Some (delete qq_number (pending_bindings_of data)) |}.

(** The locked part of [verify_binding] ends either with the pair to return
    ([inl]) or with the user name to bind once the lock is released ([inr]). *)
Definition verify_binding (qq_number code : string) (now : Q)
    : Prog (bool * string) :=
  WithLock (λ f,
    let data := _load f in
    let pending := pending_bindings_of data !! qq_number in
    match pending with
    | None => (f, inl (false, MSG_NO_PENDING))
    | Some p =>
        if Qltb (pb_expire_time p) now
        then (_save (pop_pending qq_number data) f, inl (false, MSG_EXPIRED))
        else if negb (String.eqb (pb_code p) code)
        then (f, inl (false, MSG_WRONG_CODE))
        else (_save (pop_pending qq_number data) f, inr (pb_username p))
    end)
  (λ r, match r with
        | inl res => Ret res
        | inr username =>
            _ ← set_binding qq_number username;
            Ret (true, MSG_BOUND username)
        end).

Definition set_notification_group (qq_number group_id : string) : Prog unit :=
  WithLock (λ f,
    let data := _load f in
    (_save {| bindings := bindings data; user_qq_map := user_qq_map data;
              notifications := Some (<[qq_number := group_id]> (notifications_of data));
              groups := groups data;
              pending_bindings := pending_bindings data |} f, tt)) Ret.

Definition get_notification_group (qq_number : string) : Prog (option string) :=
  WithLock (λ f, let data := _load f in (f, notifications_of data !! qq_number)) Ret.

Definition with_groups (l : list string) (data : Document) : Document :=
  {| bindings := bindings data; user_qq_map := user_qq_map data;
     notifications := notifications data; groups := Some l;
     pending_bindings := pending_bindings data |}.

Definition add_group (group_id : string) : Prog unit :=
  WithLock (λ f,
    let data := _load f in
    let groups0 := groups_of data in
    if bool_decide (group_id ∈ groups0) then (f, tt)
    else (_save (with_groups (groups0 ++ [group_id]) data) f, tt)) Ret.

Definition remove_group (group_id : string) : Prog unit :=
  WithLock (λ f,
    let data := _load f in
    let groups0 := groups_of data in
    if bool_decide (group_id ∈ groups0)
    then (_save (with_groups (list_remove group_id groups0) data) f, tt)
    else (f, tt)) Ret.

Definition get_groups : Prog (list string) :=
  WithLock (λ f, let data := _load f in (f, groups_of data)) Ret.

(** ** qq_bot.py *)

(** [MessageHandler._handle_bind] up to the point where the code is handed to
    the forum server: [inl remaining] when the cooldown message is sent,
    [inr code] when a pending entry was created. [t_check] is the clock read by
    [check_bind_cooldown]. *)
Definition _handle_bind (qq_number username : string) (r : Z)
    (t_check t_expire t_request : Q) : Prog (Z + string) :=
  '(can_request, remaining) ← check_bind_cooldown qq_number t_check;
  if negb can_request then Ret (inl remaining)
  else
    code ← create_pending_binding qq_number username r t_expire t_request;
    Ret (inr code).

Section Router.
(** [QQBotAPI.is_user_in_group group_id qq_number], a query to the chat
    client. *)
Variable is_user_in_group : string → string → bool.

(** [WebhookHandler._find_notification_group]; [None] stands for the private
    channel. *)
Definition _find_notification_group (qq_number : string) : Prog (option string) :=
  preferred ← get_notification_group qq_number;
  if bool_decide (preferred = Some "private") then Ret None
  else if match preferred with
          | Some g => str_truthy g && is_user_in_group g qq_number
          | None => false
          end
  then Ret preferred
  else
    roster ← get_groups;
    Ret (find (λ group_id, is_user_in_group group_id qq_number) roster).
End Router.

(** ** The link registry seen through its two lookups *)

Definition lookupAccount (f : File) (chatIdentity : string) : option string :=
  (run (get_binding chatIdentity) f).2.

Definition lookupIdentity (f : File) (accountName : string) : option string :=
  (run (get_qq_by_username accountName) f).2.

(** A sequence of [set_binding qq_number username] calls, left to right. *)
Definition bind_all (ops : list (string * string)) (f : File) : File :=
  foldl (λ f op, (run (set_binding op.1 op.2) f).1) f ops.

(** The two maps are inverse to each other on what they hold. *)
Definition bijection (f : File) : Prop :=
  (∀ a x, lookupIdentity f a = Some x → lookupAccount f x = Some a) ∧
  (∀ x a, lookupAccount f x = Some a → lookupIdentity f a = Some x).

(** No key and no value of the forward map is the empty string. *)
Definition nonempty_links (f : File) : Prop :=
  ∀ x a, lookupAccount f x = Some a → x ≠ "" ∧ a ≠ "".

(** The pending entry of an identity, as every method reads it. *)
Definition get_pending (f : File) (qq_number : string) : option Pending :=
  pending_bindings_of (_load f) !! qq_number.

(** [pending.get("request_time", 0)] *)
Definition requested_at (p : Pending) : Q := default 0%Q (pb_request_time p).


(** ** Sample states used to exercise the statements *)

(** The entry of a request for "alice" drawn with code 123456 at time 0:
    it expires at time 300. *)
Definition sample_pending : Pending := new_pending "alice" 123456 0 0.

(** The data file after [__init__] on a fresh directory and one call
    [create_pending_binding("Q1", "alice")] at time 0. *)
Definition sample_file : File :=
  (run (create_pending_binding "Q1" "alice" 123456 0 0)
     (_ensure_file Missing)).1.

(** The characters ["0"] to ["9"]. *)
Definition is_decimal_digit (c : ascii) : bool :=
  match c with
  | "0" | "1" | "2" | "3" | "4" | "5" | "6" | "7" | "8" | "9" => true
  | _ => false
  end%char.

Fixpoint all_digits (s : string) : bool :=
  match s with
  | EmptyString => true
  | String c s' => is_decimal_digit c && all_digits s'
  end.

(** ** The cooldown condition as the specification words it *)

(** No pending entry, or an entry requested more than [BIND_COOLDOWN] seconds
    before [now]. *)
Definition request_allowed_as_stated (f : File) (qq_number : string) (now : Q)
    : Prop :=
  get_pending f qq_number = None
  ∨ ∃ p, get_pending f qq_number = Some p
         ∧ (requested_at p + BIND_COOLDOWN < now)%Q.

(** ** Channel resolution as the specification words it *)

(** The first group of the roster the identity is a member of. *)
Definition first_member_group (is_member : string → bool) (roster : list string)
    : option string :=
  find is_member roster.


(** The same order, a preferred group counting as set only when the stored
    preference is a non-empty string. *)
Definition resolveChannel (is_member : string → bool)
    (preference : option string) (roster : list string) : option string :=
  if bool_decide (preference = Some "private") then None
  else match preference with
       | Some g =>
           if str_truthy g && is_member g then Some g
           else first_member_group is_member roster
       | None => first_member_group is_member roster
       end.

(** The stored preference and roster, as [_find_notification_group] reads
    them. *)
Definition get_preference (f : File) (qq_number : string) : option string :=
  (run (get_notification_group qq_number) f).2.

Definition listGroups (f : File) : list string := (run get_groups f).2.


(** "Q1" is linked to "alice" and prefers group "G1"; the roster is "G1",
    "G2". *)
Definition routing_file : File :=
  (run (_ ← set_binding "Q1" "alice";
        _ ← set_notification_group "Q1" "G1";
        _ ← add_group "G1";
        add_group "G2")
     (_ensure_file Missing)).1.

(** ** qq_bot.py: class QQBot, roster events *)

(** [QQBot.on_group_join] and [QQBot.on_group_leave] (their [print] left
    out). *)
Definition on_group_join (group_id : string) : Prog unit := add_group group_id.
Definition on_group_leave (group_id : string) : Prog unit := remove_group group_id.

(** The bot joined or left a group. *)
Inductive RosterEvent : Type :=
| BotJoined (group_id : string)
| BotLeft (group_id : string).

Definition on_roster_event (e : RosterEvent) : Prog unit :=
  match e with
  | BotJoined group_id => on_group_join group_id
  | BotLeft group_id => on_group_leave group_id
  end.

(** A sequence of roster events, handled one after the other. *)
Definition roster_events (events : list RosterEvent) (f : File) : File :=
  foldl (λ f e, (run (on_roster_event e) f).1) f events.

(** ** qq_bot.py: class MessageHandler, replies *)

(** A call to the chat client: [send_private_message qq_number message],
    [send_group_message group_id message] or
    [send_group_at_message group_id qq_number message]. *)
Inductive Outgoing : Type :=
| PrivateMessage (qq_number message : string)
| GroupMessage (group_id message : string)
| GroupAtMessage (group_id qq_number message : string).

(** [if not username] on the result of [get_binding]: [None] and the empty
    string are falsy. *)
Definition opt_truthy (o : option string) : bool :=
  match o with
  | Some s => str_truthy s
  | None => false
  end.

Definition MSG_NOT_BOUND_GROUP : string :=
  "你还没有绑定账号，请先私聊发送 /bind <用户名> 进行绑定".
Definition MSG_GROUP_SET : string :=
  "已设置本群为你的优先通知群".
Definition MSG_NOT_BOUND_PRIVATE : string :=
  "你还没有绑定账号，请先使用 /bind <用户名> 进行绑定".
Definition MSG_PRIVATE_SET : string :=
  "已设置为私聊通知优先".

(** [MessageHandler._handle_verify] *)
Definition _handle_verify (qq_number code : string) (now : Q) : Prog Outgoing :=
  '(success, message) ← verify_binding qq_number code now;
  Ret (PrivateMessage qq_number message).

(** [MessageHandler._handle_noti] *)
Definition _handle_noti (group_id qq_number : string) : Prog Outgoing :=
  username ← get_binding qq_number;
  if negb (opt_truthy username)
  then Ret (GroupMessage group_id MSG_NOT_BOUND_GROUP)
  else
    _ ← set_notification_group qq_number group_id;
    Ret (GroupMessage group_id MSG_GROUP_SET).

(** [MessageHandler._handle_noti_private] *)
Definition _handle_noti_private (qq_number : string) : Prog Outgoing :=
  username ← get_binding qq_number;
  if negb (opt_truthy username)
  then Ret (PrivateMessage qq_number MSG_NOT_BOUND_PRIVATE)
  else
    _ ← set_notification_group qq_number "private";
    Ret (PrivateMessage qq_number MSG_PRIVATE_SET).

(** ** qq_bot.py: class WebhookHandler *)




Section Webhooks.
Variable is_user_in_group : string → string → bool.



End Webhooks.



(** ** qq_bot.py: class OneBotWebSocket *)

(** [str(data.get(key, ""))] for a key that holds an integer when present. *)
Definition str_field (v : option Z) : string :=
  match v with
  | Some n => py_str n
  | None => ""
  end.

(** One element of a message given as a list: something that is not a
    dictionary, or a dictionary with its ["type"] and the ["text"] of its
    ["data"] ([None] for a missing key). *)
Inductive Segment : Type :=
| SegNotDict
| SegDict (seg_type : option string) (seg_text : option string).

(** The ["message"] field: a string, a list of segments or anything else. *)
Inductive MessageField : Type :=
| MsgStr (s : string)
| MsgList (segs : list Segment)
| MsgOther.

(** The text a segment contributes to [texts], if any. *)
Definition segment_text (seg : Segment) : option string :=
  match seg with
  | SegDict seg_type seg_text =>
      if bool_decide (seg_type = Some "text") then Some (default "" seg_text)
      else None
  | SegNotDict => None
  end.

(** [OneBotWebSocket._extract_text] *)
Definition _extract_text (message : MessageField) : string :=
  match message with
  | MsgStr s => s
  | MsgList segs => String.concat "" (omap segment_text segs)
  | MsgOther => ""
  end.

(** A notice event with the fields [_handle_notice_event] reads. *)
Record Notice : Type := mkNotice {
  notice_type : option string;
  nt_user_id : option Z;
  nt_group_id : option Z;
  nt_self_id : option Z
}.

(** [OneBotWebSocket._handle_notice_event] *)
Definition _handle_notice_event (data : Notice) : Prog unit :=
  if bool_decide (notice_type data = Some "group_increase") then
    let user_id := str_field (nt_user_id data) in
    let group_id := str_field (nt_group_id data) in
    let self_id := str_field (nt_self_id data) in
    if bool_decide (user_id = self_id) then on_group_join group_id else Ret tt
  else if bool_decide (notice_type data = Some "group_decrease") then
    let user_id := str_field (nt_user_id data) in
    let group_id := str_field (nt_group_id data) in
    let self_id := str_field (nt_self_id data) in
    if bool_decide (user_id = self_id) then on_group_leave group_id else Ret tt
  else Ret tt.

(** [OneBotWebSocket._sync_group_list] on the list [get_group_list] returned,
    each element given by its ["group_id"]. *)
Fixpoint _sync_group_list (group_list : list (option Z)) : Prog unit :=
  match group_list with
  | [] => Ret tt
  | group :: rest =>
      let group_id := str_field group in
      _ ← (if str_truthy group_id then add_group group_id else Ret tt);
      _sync_group_list rest
  end.

(** ** Python strings as UTF-8 text: [str.strip], [str.startswith], slices *)

(** A Python string is held as the bytes of its UTF-8 encoding (this is how
    the literals of this file are stored). [WHITESPACE] lists the encodings
    of the characters [str.isspace] accepts, the ones [str.strip] removes:
    U+0009 to U+000D, U+001C to U+0020, U+0085, U+00A0, U+1680, U+2000 to
    U+200A, U+2028, U+2029, U+202F, U+205F and U+3000. *)
Definition utf8 (bytes : list nat) : list ascii := ascii_of_nat <$> bytes.

Definition WHITESPACE : list (list ascii) :=
  utf8 <$> [ [9]; [10]; [11]; [12]; [13]; [28]; [29]; [30]; [31]; [32];
             [194; 133]; [194; 160]; [225; 154; 128];
             [226; 128; 128]; [226; 128; 129]; [226; 128; 130];
             [226; 128; 131]; [226; 128; 132]; [226; 128; 133];
             [226; 128; 134]; [226; 128; 135]; [226; 128; 136];
             [226; 128; 137]; [226; 128; 138];
             [226; 128; 168]; [226; 128; 169]; [226; 128; 175];
             [226; 129; 159]; [227; 128; 128] ].

(** Removes encodings of [W] from the front of [l] as long as there is one;
    [fuel] bounds the number of rounds. *)
Fixpoint lstrip_with (W : list (list ascii)) (fuel : nat) (l : list ascii)
    : list ascii :=
  match fuel with
  | O => l
  | S fuel' =>
      match find (λ w, bool_decide (w `prefix_of` l)) W with
      | Some w => lstrip_with W fuel' (drop (length w) l)
      | None => l
      end
  end.

Definition lstrip_chars (l : list ascii) : list ascii :=
  lstrip_with WHITESPACE (length l) l.

Definition rstrip_chars (l : list ascii) : list ascii :=
  reverse (lstrip_with (reverse <$> WHITESPACE) (length l) (reverse l)).

(** No encoding of a whitespace character at the front, respectively at the
    end. *)
Definition clean_left (l : list ascii) : Prop :=
  ∀ w, w ∈ WHITESPACE → ¬ w `prefix_of` l.
Definition clean_right (l : list ascii) : Prop :=
  ∀ w, w ∈ WHITESPACE → ¬ w `suffix_of` l.

(** [s.strip()] *)
Definition strip (s : string) : string :=
  string_of_list_ascii
    (rstrip_chars (lstrip_chars (list_ascii_of_string s))).

(** [s.startswith(p)] *)
Definition startswith (s p : string) : bool :=
  bool_decide (list_ascii_of_string p `prefix_of` list_ascii_of_string s).

(** [s[n:]] where the first [n] characters of [s] are ASCII, hence [n]
    bytes. *)
Definition slice_from (n : nat) (s : string) : string :=
  string_of_list_ascii (drop n (list_ascii_of_string s)).

(** ** qq_bot.py: class MessageHandler, dispatch *)

Definition HELP_MSG : string :=
  "QQ 机器人帮助：
/bind <用户名> - 绑定论坛账号
/verify <验证码> - 验证绑定
/noti - 设置通知方式（私聊中使用为私聊通知，群里使用为群通知）
/help - 显示帮助".

(** What a message handler did: it ran [_handle_bind] (with its result), it
    sent one reply, or it did nothing. *)
Inductive Handled : Type :=
| HandledBind (result : Z + string)
| HandledReply (out : Outgoing)
| HandledNothing.

(** [MessageHandler.handle_private_message]. [r] and the three clock readings
    after it are those of [_handle_bind], [now] the clock reading of
    [verify_binding]. *)
Definition handle_private_message (qq_number message0 : string) (r : Z)
    (t_check t_expire t_request now : Q) : Prog Handled :=
  let message := strip message0 in
  if startswith message "/bind " then
    let username := strip (slice_from 6 message) in
    result ← _handle_bind qq_number username r t_check t_expire t_request;
    Ret (HandledBind result)
  else if startswith message "/verify " then
    let code := strip (slice_from 8 message) in
    out ← _handle_verify qq_number code now;
    Ret (HandledReply out)
  else if bool_decide (message ∈ ["/help"; "帮助"; "?"]) then
    Ret (HandledReply (PrivateMessage qq_number HELP_MSG))
  else if bool_decide (message = "/noti") then
    out ← _handle_noti_private qq_number;
    Ret (HandledReply out)
  else Ret HandledNothing.

(** [MessageHandler.handle_group_message] *)
Definition handle_group_message (group_id qq_number message0 : string)
    : Prog Handled :=
  let message := strip message0 in
  if bool_decide (message = "/noti") then
    out ← _handle_noti group_id qq_number;
    Ret (HandledReply out)
  else Ret HandledNothing.

(** No pending entry and no binding carries the empty user name. *)
Definition usernames_nonempty (f : File) : Prop :=
  (∀ x p, get_pending f x = Some p → pb_username p ≠ "")
  ∧ (∀ x a, lookupAccount f x = Some a → a ≠ "").

(** ** backup_scheduler.py: class BackupScheduler *)

(** What one round of [_scheduler_loop] observes: the date, hour and minute
    of [datetime.now()] (the date as a day number), and whether [run_backup],
    if called in this round, returns ([true]) or raises ([false]). *)
Record Tick : Type := mkTick {
  tk_date : Z;
  tk_hour : Z;
  tk_minute : Z;
  tk_backup_ok : bool
}.

(** The body of the [while True] loop: the new [last_backup_date], and
    whether a backup completed in this round. *)
Definition scheduler_round (hour minute : Z) (last_backup_date : option Z)
    (t : Tick) : option Z * bool :=
  let today := tk_date t in
  if bool_decide (tk_hour t = hour) && bool_decide (tk_minute t = minute)
     && negb (bool_decide (last_backup_date = Some today))
  then if tk_backup_ok t then (Some today, true) else (last_backup_date, false)
  else (last_backup_date, false).

(** The dates of the backups completed over a run of rounds, starting with
    [last_backup_date]. *)
Fixpoint _scheduler_loop (hour minute : Z) (last_backup_date : option Z)
    (ticks : list Tick) : list Z :=
  match ticks with
  | [] => []
  | t :: rest =>
      let '(last', done) := scheduler_round hour minute last_backup_date t in
      if done then tk_date t :: _scheduler_loop hour minute last' rest
      else _scheduler_loop hour minute last' rest
  end.
(** * Basic facts *)

Lemma str_truthy_true (s : string) : s ≠ "" → str_truthy s = true.
Proof. destruct s; [congruence | reflexivity]. Qed.

Lemma Qltb_lt (x y : Q) : Qltb x y = true ↔ (x < y)%Q.
Proof. unfold Qltb, Qlt. apply Z.ltb_lt. Qed.

Lemma Qltb_ge (x y : Q) : Qltb x y = false ↔ (y <= x)%Q.
Proof. unfold Qltb, Qle. apply Z.ltb_ge. Qed.

Lemma run_set_binding (q u : string) (f : File) :
  run (set_binding q u) f = (Json (set_binding_data q u (_load f)), tt).
Proof. reflexivity. Qed.

Lemma lookupAccount_json (data : Document) (x : string) :
  lookupAccount (Json data) x = bindings_of data !! x.
Proof. reflexivity. Qed.

Lemma lookupIdentity_json (data : Document) (a : string) :
  lookupIdentity (Json data) a = user_qq_map_of data !! a.
Proof. reflexivity. Qed.

Section Bind_invariant.
Variables (q u : string) (data : Document).
Hypothesis q_nonempty : q ≠ "".
Hypothesis u_nonempty : u ≠ "".
Hypothesis inverse : ∀ x a,
  bindings_of data !! x = Some a ↔ user_qq_map_of data !! a = Some x.
Hypothesis nonempty : ∀ x a,
  bindings_of data !! x = Some a → x ≠ "" ∧ a ≠ "".

Lemma forward_injective (x x' a : string) :
  bindings_of data !! x = Some a → bindings_of data !! x' = Some a → x = x'.
Proof.
  intros H1%inverse H2%inverse. congruence.
Qed.

Lemma reverse_injective (a a' x : string) :
  user_qq_map_of data !! a = Some x → user_qq_map_of data !! a' = Some x → a = a'.
Proof.
  intros H1%inverse H2%inverse. congruence.
Qed.

Ltac close_case :=
  split; intros Hl;
  solve [ congruence
        | exfalso; eauto using forward_injective, reverse_injective
        | apply inverse in Hl; congruence
        | apply inverse; congruence
        | apply inverse in Hl;
          match goal with
          | H1 : _ !! ?k = Some ?v, H2 : _ !! ?k' = Some ?v |- _ =>
              first [ pose proof (forward_injective _ _ _ H1 H2)
                    | pose proof (reverse_injective _ _ _ H1 H2) ]; congruence
          end ].

Lemma set_binding_data_inverse (x a : string) :
  bindings_of (set_binding_data q u data) !! x = Some a
  ↔ user_qq_map_of (set_binding_data q u data) !! a = Some x.
Proof.
  unfold set_binding_data.
  set (b := bindings_of data) in *. set (m := user_qq_map_of data) in *.
  unfold bindings_of, user_qq_map_of; cbn [bindings user_qq_map default from_option id].
  destruct (b !! q) as [o|] eqn:Ho.
  - destruct (nonempty _ _ Ho) as [_ Hne]. rewrite (str_truthy_true _ Hne).
    pose proof (proj1 (inverse _ _) Ho) as Hom.
    destruct (delete o m !! u) as [y|] eqn:Hy.
    + apply lookup_delete_Some in Hy as [Hou Hy].
      pose proof (proj2 (inverse _ _) Hy) as Hyb.
      destruct (nonempty _ _ Hyb) as [Hyne _]. rewrite (str_truthy_true _ Hyne).
      rewrite !lookup_insert, !lookup_delete.
      repeat case_decide; subst; try close_case.
    + apply lookup_delete_None in Hy.
      rewrite !lookup_insert, !lookup_delete.
      destruct Hy as [->|Hy];
        repeat case_decide; subst; try close_case.
  - destruct (m !! u) as [y|] eqn:Hy.
    + pose proof (proj2 (inverse _ _) Hy) as Hyb.
      destruct (nonempty _ _ Hyb) as [Hyne _]. rewrite (str_truthy_true _ Hyne).
      rewrite !lookup_insert, !lookup_delete.
      repeat case_decide; subst; try close_case.
    + rewrite !lookup_insert.
      repeat case_decide; subst; try close_case.
Qed.

Lemma set_binding_data_nonempty (x a : string) :
  bindings_of (set_binding_data q u data) !! x = Some a → x ≠ "" ∧ a ≠ "".
Proof.
  unfold set_binding_data.
  set (b := bindings_of data) in *. set (m := user_qq_map_of data) in *.
  unfold bindings_of; cbn [bindings default from_option id].
  rewrite lookup_insert. case_decide as Hq.
  - intros [= <-]. subst x. done.
  - destruct (_ !! u) as [y|]; [destruct (str_truthy y)|]; try apply nonempty.
    rewrite lookup_delete. case_decide; [discriminate | apply nonempty].
Qed.
End Bind_invariant.

Lemma bind_all_keeps_bijection (ops : list (string * string)) (f : File) :
  Forall (λ op, op.1 ≠ "" ∧ op.2 ≠ "") ops →
  bijection f ∧ nonempty_links f →
  bijection (bind_all ops f) ∧ nonempty_links (bind_all ops f).
Proof.
  revert f. induction ops as [|[q u] ops IH]; intros f Hops Hf; [exact Hf|].
  inversion Hops as [|? ? [Hq Hu] Hrest]; subst. cbn [fst snd] in Hq, Hu.
  cbn [bind_all foldl]. apply IH; [exact Hrest|].
  rewrite run_set_binding. cbn [fst snd].
  destruct Hf as [[Hab Hba] Hne].
  assert (Hinv : ∀ x a, bindings_of (_load f) !! x = Some a
                        ↔ user_qq_map_of (_load f) !! a = Some x).
  { intros x a. split; [apply Hba | apply Hab]. }
  split; [split|].
  - intros a x. rewrite lookupIdentity_json, lookupAccount_json.
    apply set_binding_data_inverse; auto.
  - intros x a. rewrite lookupIdentity_json, lookupAccount_json.
    apply set_binding_data_inverse; auto.
  - intros x a. rewrite lookupAccount_json.
    apply set_binding_data_nonempty; auto.
Qed.

(** X25: the invariant of the link registry: as long as no empty string is
    ever bound, every sequence of [set_binding] calls from the empty document
    keeps the two maps inverse to each other. *)
Theorem set_binding_bijection_nonempty (ops : list (string * string)) :
  Forall (λ op, op.1 ≠ "" ∧ op.2 ≠ "") ops →
  bijection (bind_all ops (Json empty_document)).
Proof.
  intros Hops. apply (bind_all_keeps_bijection ops (Json empty_document) Hops).
  split; [split|]; intros ? ?; discriminate.
Qed.


(** * The link registry (claims C1 and C10) *)

(** C1: the bijection between the forward and the reverse map does not survive
    every sequence of [set_binding] calls. Binding identity "X" to the
    empty account name and then to "B" leaves the reverse entry of the empty
    name in place: [lookupIdentity ""] still answers "X" although "X" is
    now bound to "B". Symmetrically, binding the empty identity to "A" and
    then "Y" to "A" leaves the forward entry of the empty identity in place.
    In both final states the two maps are no longer inverse to each other. *)
Theorem set_binding_empty_string_breaks_bijection :
  lookupIdentity (bind_all [("X", ""); ("X", "B")] (Json empty_document)) ""
    = Some "X"
  ∧ lookupAccount (bind_all [("X", ""); ("X", "B")] (Json empty_document)) "X"
    = Some "B"
  ∧ lookupAccount (bind_all [("", "A"); ("Y", "A")] (Json empty_document)) ""
    = Some "A"
  ∧ lookupIdentity (bind_all [("", "A"); ("Y", "A")] (Json empty_document)) "A"
    = Some "Y"
  ∧ ¬ bijection (bind_all [("X", ""); ("X", "B")] (Json empty_document))
  ∧ ¬ bijection (bind_all [("", "A"); ("Y", "A")] (Json empty_document)).
Proof.
  repeat split; try reflexivity.
  - intros [Hab _]. specialize (Hab "" "X" eq_refl). discriminate Hab.
  - intros [_ Hba]. specialize (Hba "" "A" eq_refl). discriminate Hba.
Qed.



(** * Verification (claim C2) *)

Lemma get_pending_pop (qq_number : string) (data : Document) :
  get_pending (Json (pop_pending qq_number data)) qq_number = None.
Proof. unfold get_pending, pop_pending; simpl. apply lookup_delete_eq. Qed.

Lemma get_pending_set_binding (q u x : string) (data : Document) :
  get_pending (Json (set_binding_data q u data)) x = get_pending (Json data) x.
Proof. reflexivity. Qed.

Lemma lookupAccount_set_binding (q u : string) (data : Document) :
  lookupAccount (Json (set_binding_data q u data)) q = Some u.
Proof.
  rewrite lookupAccount_json. unfold set_binding_data, bindings_of at 1.
  cbn [bindings default from_option id]. apply lookup_insert_eq.
Qed.

Lemma lookupIdentity_set_binding (q u : string) (data : Document) :
  lookupIdentity (Json (set_binding_data q u data)) u = Some q.
Proof.
  rewrite lookupIdentity_json. unfold set_binding_data, user_qq_map_of at 1.
  cbn [user_qq_map default from_option id]. apply lookup_insert_eq.
Qed.

Lemma run_verify_binding (f : File) (qq_number code : string) (now : Q) :
  run (verify_binding qq_number code now) f
  = match get_pending f qq_number with
    | None => (f, (false, MSG_NO_PENDING))
    | Some p =>
        if Qltb (pb_expire_time p) now
        then (Json (pop_pending qq_number (_load f)), (false, MSG_EXPIRED))
        else if String.eqb (pb_code p) code
        then (Json (set_binding_data qq_number (pb_username p)
                      (pop_pending qq_number (_load f))),
              (true, MSG_BOUND (pb_username p)))
        else (f, (false, MSG_WRONG_CODE))
    end.
Proof.
  unfold verify_binding, get_pending. cbn [run].
  destruct (pending_bindings_of (_load f) !! qq_number) as [p|]; [|reflexivity].
  destruct (Qltb (pb_expire_time p) now); [reflexivity|].
  destruct (String.eqb (pb_code p) code); reflexivity.
Qed.

(** C2: [verify_binding] follows a four-way case analysis. With no pending
    entry it returns the failure "no pending request" and leaves the file as
    it is. With an entry whose [expire_time] is before [now] it removes the
    entry and returns the failure "expired". With a live entry and a code
    different from the stored one it returns the failure "wrong code" and
    leaves the file as it is, so the entry is retained. Otherwise it removes
    the entry, binds the identity to the stored user name with [set_binding],
    and returns success with a message naming that user. *)
Theorem verify_binding_cases (f : File) (qq_number code : string) (now : Q) :
  (get_pending f qq_number = None →
     run (verify_binding qq_number code now) f = (f, (false, MSG_NO_PENDING)))
  ∧ (∀ p, get_pending f qq_number = Some p → (pb_expire_time p < now)%Q →
       run (verify_binding qq_number code now) f
       = (Json (pop_pending qq_number (_load f)), (false, MSG_EXPIRED))
       ∧ get_pending (run (verify_binding qq_number code now) f).1 qq_number
         = None)
  ∧ (∀ p, get_pending f qq_number = Some p → ¬ (pb_expire_time p < now)%Q →
       code ≠ pb_code p →
       run (verify_binding qq_number code now) f = (f, (false, MSG_WRONG_CODE))
       ∧ get_pending (run (verify_binding qq_number code now) f).1 qq_number
         = Some p)
  ∧ (∀ p, get_pending f qq_number = Some p → ¬ (pb_expire_time p < now)%Q →
       code = pb_code p →
       run (verify_binding qq_number code now) f
       = (Json (set_binding_data qq_number (pb_username p)
                  (pop_pending qq_number (_load f))),
          (true, MSG_BOUND (pb_username p)))
       ∧ get_pending (run (verify_binding qq_number code now) f).1 qq_number
         = None
       ∧ lookupAccount (run (verify_binding qq_number code now) f).1 qq_number
         = Some (pb_username p)
       ∧ lookupIdentity (run (verify_binding qq_number code now) f).1
           (pb_username p)
         = Some qq_number).
Proof.
  rewrite run_verify_binding.
  split; [|split; [|split]].
  - intros ->. reflexivity.
  - intros p -> Hexp. apply Qltb_lt in Hexp. rewrite Hexp.
    split; [reflexivity | apply get_pending_pop].
  - intros p Hp Hlive Hcode. rewrite Hp.
    destruct (Qltb (pb_expire_time p) now) eqn:E;
      [apply Qltb_lt in E; contradiction|].
    destruct (String.eqb_spec (pb_code p) code); [congruence|].
    split; [reflexivity | exact Hp].
  - intros p Hp Hlive Hcode. rewrite Hp.
    destruct (Qltb (pb_expire_time p) now) eqn:E;
      [apply Qltb_lt in E; contradiction|].
    destruct (String.eqb_spec (pb_code p) code); [|congruence].
    cbn [fst]. split; [reflexivity|]. split; [|split].
    + rewrite get_pending_set_binding. apply get_pending_pop.
    + apply lookupAccount_set_binding.
    + apply lookupIdentity_set_binding.
Qed.

Lemma verify_binding_cases_witness :
  run (verify_binding "Q1" "123456" 100) sample_file
  = (Json (set_binding_data "Q1" "alice" (pop_pending "Q1" (_load sample_file))),
     (true, MSG_BOUND "alice"))
  ∧ get_pending (run (verify_binding "Q1" "123456" 100) sample_file).1 "Q1" = None
  ∧ lookupAccount (run (verify_binding "Q1" "123456" 100) sample_file).1 "Q1"
    = Some "alice"
  ∧ lookupIdentity (run (verify_binding "Q1" "123456" 100) sample_file).1 "alice"
    = Some "Q1".
Proof.
  apply (proj2 (proj2 (proj2 (verify_binding_cases sample_file "Q1" "123456" 100)))
           sample_pending).
  - reflexivity.
  - intros H. discriminate H.
  - reflexivity.
Defined.

(** * Cooldown (claims C3 and C8) *)

Lemma run_check_bind_cooldown (f : File) (qq_number : string) (now : Q) :
  run (check_bind_cooldown qq_number now) f
  = (f, match get_pending f qq_number with
        | Some p =>
            if Qltb (now - requested_at p) BIND_COOLDOWN
            then (false, py_int (BIND_COOLDOWN - (now - requested_at p)))
            else (true, 0%Z)
        | None => (true, 0%Z)
        end).
Proof. reflexivity. Qed.

Lemma elapsed_lt_cooldown (now rt : Q) :
  (now - rt < BIND_COOLDOWN)%Q ↔ (now < rt + BIND_COOLDOWN)%Q.
Proof. unfold BIND_COOLDOWN. split; intros H; lra. Qed.

Lemma cooldown_blocks_iff (f : File) (qq_number : string) (now : Q) :
  (run (check_bind_cooldown qq_number now) f).2.1 = false
  ↔ ∃ p, get_pending f qq_number = Some p
         ∧ (now < requested_at p + BIND_COOLDOWN)%Q.
Proof.
  rewrite run_check_bind_cooldown. cbn [fst snd].
  destruct (get_pending f qq_number) as [p|].
  - destruct (Qltb (now - requested_at p) BIND_COOLDOWN) eqn:E; cbn [fst].
    + apply Qltb_lt, elapsed_lt_cooldown in E. split; [eauto|reflexivity].
    + apply Qltb_ge in E. split; [discriminate|].
      intros (p' & [= <-] & Hlt). apply elapsed_lt_cooldown in Hlt.
      exfalso. apply (Qlt_not_le _ _ Hlt E).
  - split; [discriminate|]. intros (p & Hp & _). discriminate Hp.
Qed.

Lemma run_create_pending_binding (f : File) (qq_number username : string)
    (r : Z) (t_expire t_request : Q) :
  run (create_pending_binding qq_number username r t_expire t_request) f
  = (Json (with_pending qq_number (new_pending username r t_expire t_request)
             (_load f)),
     py_str r).
Proof. reflexivity. Qed.

Lemma run_handle_bind (f : File) (qq_number username : string) (r : Z)
    (t_check t_expire t_request : Q) :
  run (_handle_bind qq_number username r t_check t_expire t_request) f
  = if (run (check_bind_cooldown qq_number t_check) f).2.1
    then (Json (with_pending qq_number
                  (new_pending username r t_expire t_request) (_load f)),
          inr (py_str r))
    else (f, inl (run (check_bind_cooldown qq_number t_check) f).2.2).
Proof.
  rewrite run_check_bind_cooldown. cbn [fst snd].
  unfold _handle_bind, check_bind_cooldown.
  cbn [mbind prog_bind bind_prog run]. fold (get_pending f qq_number).
  destruct (get_pending f qq_number) as [p|]; [|reflexivity].
  unfold requested_at.
  destruct (Qltb _ BIND_COOLDOWN); reflexivity.
Qed.

Lemma get_pending_with_pending (qq_number : string) (entry : Pending)
    (data : Document) :
  get_pending (Json (with_pending qq_number entry data)) qq_number = Some entry.
Proof. unfold get_pending, with_pending; simpl. apply lookup_insert_eq. Qed.

(** C3, the boundary: a pending entry requested at time 0 and a request at
    time 60, exactly [BIND_COOLDOWN] seconds later. The entry's request time
    is not more than [BIND_COOLDOWN] before [now], and yet the request is
    allowed. *)
Lemma cooldown_boundary_counterexample :
  get_pending sample_file "Q1" = Some sample_pending
  ∧ requested_at sample_pending = 0%Q
  ∧ run (check_bind_cooldown "Q1" 60) sample_file = (sample_file, (true, 0%Z))
  ∧ ¬ request_allowed_as_stated sample_file "Q1" 60.
Proof.
  split; [reflexivity|]. split; [reflexivity|]. split; [reflexivity|].
  intros [Hnone | (p & [= <-] & Hlt)]; [discriminate Hnone | discriminate Hlt].
Qed.

(** C3, as the code has it: a link request for an identity is allowed if and
    only if there is no pending entry for it or the entry's request time is at
    least [BIND_COOLDOWN] (60) seconds before [now]; otherwise the check fails
    and carries [int(BIND_COOLDOWN - elapsed)] remaining seconds, the file
    being left as it is. Hence, after a request that created an entry at
    [t_request], a second request for the same identity whose check reads a
    clock less than 60 seconds later is refused with the remaining seconds,
    and one whose check reads a clock at least 60 seconds later goes
    through. *)
Theorem link_request_cooldown (f : File) (qq_number : string) (now : Q) :
  BIND_COOLDOWN = 60%Q
  ∧ ((run (check_bind_cooldown qq_number now) f).2.1 = true
     ↔ get_pending f qq_number = None
       ∨ ∃ p, get_pending f qq_number = Some p
              ∧ (requested_at p + BIND_COOLDOWN <= now)%Q)
  ∧ (∀ p, get_pending f qq_number = Some p →
          (now < requested_at p + BIND_COOLDOWN)%Q →
          run (check_bind_cooldown qq_number now) f
          = (f, (false, py_int (BIND_COOLDOWN - (now - requested_at p)))))
  ∧ (∀ (username username' : string) (r r' : Z) (t_expire t_request : Q)
       (later t_expire' t_request' : Q),
       (run (check_bind_cooldown qq_number now) f).2.1 = true →
       ((later < t_request + BIND_COOLDOWN)%Q →
        run (_handle_bind qq_number username' r' later t_expire' t_request')
          (run (_handle_bind qq_number username r now t_expire t_request) f).1
        = ((run (_handle_bind qq_number username r now t_expire t_request) f).1,
           inl (py_int (BIND_COOLDOWN - (later - t_request)))))
       ∧ ((t_request + BIND_COOLDOWN <= later)%Q →
          (run (_handle_bind qq_number username' r' later t_expire' t_request')
             (run (_handle_bind qq_number username r now t_expire t_request) f).1).2
          = inr (py_str r'))).
Proof.
  split; [reflexivity|]. split; [|split].
  - rewrite run_check_bind_cooldown. cbn [fst snd].
    destruct (get_pending f qq_number) as [p|]; [|split; auto].
    destruct (Qltb (now - requested_at p) BIND_COOLDOWN) eqn:E; cbn [fst].
    + apply Qltb_lt, elapsed_lt_cooldown in E. split; [discriminate|].
      intros [Hnone | (p' & [= <-] & Hle)]; [discriminate|].
      exfalso. apply (Qlt_not_le _ _ E Hle).
    + apply Qltb_ge in E. split; [|reflexivity]. intros _. right.
      exists p. split; [reflexivity|]. unfold BIND_COOLDOWN in *. lra.
  - intros p Hp Hlt. rewrite run_check_bind_cooldown, Hp.
    apply elapsed_lt_cooldown, Qltb_lt in Hlt. rewrite Hlt. reflexivity.
  - intros username username' r r' t_expire t_request later t_expire' t_request'
      Hallowed.
    rewrite (run_handle_bind f), Hallowed. cbn [fst].
    set (f1 := Json _).
    assert (Hp : get_pending f1 qq_number
                 = Some (new_pending username r t_expire t_request))
      by apply get_pending_with_pending.
    split; intros Hlater; rewrite run_handle_bind, run_check_bind_cooldown, Hp;
      cbn [fst snd requested_at new_pending pb_request_time default from_option id].
    + apply elapsed_lt_cooldown, Qltb_lt in Hlater. rewrite Hlater. reflexivity.
    + assert (E : Qltb (later - t_request) BIND_COOLDOWN = false).
      { apply Qltb_ge. unfold BIND_COOLDOWN in *. lra. }
      rewrite E. reflexivity.
Qed.

Lemma link_request_cooldown_witness :
  run (check_bind_cooldown "Q1" 59) sample_file
  = (sample_file, (false, py_int (BIND_COOLDOWN - (59 - requested_at sample_pending)))).
Proof.
  apply (proj1 (proj2 (proj2 (link_request_cooldown sample_file "Q1" 59)))
           sample_pending).
  - reflexivity.
  - reflexivity.
Defined.

(** * Issuing a verification code (claim C7) *)

Lemma pretty_N_char_digit (x : N) : is_decimal_digit (pretty_N_char x) = true.
Proof. destruct x as [|p]; [reflexivity|]. do 4 (destruct p; try reflexivity). Qed.

Lemma div10_bounds (lo hi n : N) :
  (10 * lo ≤ n < 10 * hi)%N → (lo ≤ n `div` 10 < hi)%N.
Proof.
  intros [Hlo Hhi]. split.
  - apply N.div_le_lower_bound; [discriminate | exact Hlo].
  - apply N.Div0.div_lt_upper_bound. exact Hhi.
Qed.

Lemma py_str_six_digits (r : Z) :
  (100000 ≤ r ≤ 999999)%Z →
  String.length (py_str r) = 6 ∧ all_digits (py_str r) = true.
Proof.
  intros Hr. destruct r as [|p|p]; try lia.
  unfold py_str, pretty, pretty_Z, pretty, pretty_positive, pretty, pretty_N.
  rewrite decide_False by discriminate.
  assert (Hp : (100000 ≤ N.pos p ≤ 999999)%N) by lia.
  generalize dependent (N.pos p). clear. intros n Hn.
  set (n1 := (n `div` 10)%N). set (n2 := (n1 `div` 10)%N).
  set (n3 := (n2 `div` 10)%N). set (n4 := (n3 `div` 10)%N).
  set (n5 := (n4 `div` 10)%N).
  pose proof (div10_bounds 10000 100000 n ltac:(lia)) as B1. fold n1 in B1.
  pose proof (div10_bounds 1000 10000 n1 ltac:(lia)) as B2. fold n2 in B2.
  pose proof (div10_bounds 100 1000 n2 ltac:(lia)) as B3. fold n3 in B3.
  pose proof (div10_bounds 10 100 n3 ltac:(lia)) as B4. fold n4 in B4.
  pose proof (div10_bounds 1 10 n4 ltac:(lia)) as B5. fold n5 in B5.
  assert (H0 : (0 < n)%N) by lia.
  assert (H1 : (0 < n1)%N) by lia.
  assert (H2 : (0 < n2)%N) by lia.
  assert (H3 : (0 < n3)%N) by lia.
  assert (H4 : (0 < n4)%N) by lia.
  assert (H5 : (0 < n5)%N) by lia.
  assert (H6 : (n5 `div` 10 = 0)%N) by (apply N.div_small; lia).
  rewrite (pretty_N_go_step n) by exact H0. fold n1.
  rewrite (pretty_N_go_step n1) by exact H1. fold n2.
  rewrite (pretty_N_go_step n2) by exact H2. fold n3.
  rewrite (pretty_N_go_step n3) by exact H3. fold n4.
  rewrite (pretty_N_go_step n4) by exact H4. fold n5.
  rewrite (pretty_N_go_step n5) by exact H5.
  rewrite H6, pretty_N_go_0.
  split; [reflexivity|].
  cbn [all_digits]. rewrite !pretty_N_char_digit. reflexivity.
Qed.

Lemma get_pending_with_pending_ne (qq_number other : string) (entry : Pending)
    (f : File) :
  other ≠ qq_number →
  get_pending (Json (with_pending qq_number entry (_load f))) other
  = get_pending f other.
Proof.
  intros Hne. unfold get_pending, with_pending; simpl.
  apply lookup_insert_ne. congruence.
Qed.

(** C7: a successful link request issued at time [now] (both clock readings
    of [create_pending_binding] being [now]) with a drawn integer [r] between
    100000 and 999999 returns the code [str(r)], a string of exactly six
    decimal digits; the file then holds, for that identity, the entry with the
    given user name, that code, [expire_time = now + VERIFICATION_TIMEOUT]
    (300) and [request_time = now], whatever entry the identity had before;
    the entries of other identities are untouched; and [_handle_bind] hands
    out exactly that code whenever the cooldown check lets the request
    through. *)
Theorem create_pending_binding_stores_entry (f : File)
    (qq_number username : string) (r : Z) (now : Q) :
  (100000 ≤ r ≤ 999999)%Z →
  VERIFICATION_TIMEOUT = 300%Q
  ∧ (run (create_pending_binding qq_number username r now now) f).2 = py_str r
  ∧ String.length (py_str r) = 6
  ∧ all_digits (py_str r) = true
  ∧ get_pending (run (create_pending_binding qq_number username r now now) f).1
      qq_number
    = Some {| pb_username := username; pb_code := py_str r;
              pb_expire_time := (now + VERIFICATION_TIMEOUT)%Q;
              pb_request_time := Some now |}
  ∧ (∀ other, other ≠ qq_number →
       get_pending (run (create_pending_binding qq_number username r now now) f).1
         other
       = get_pending f other)
  ∧ ((run (check_bind_cooldown qq_number now) f).2.1 = true →
     run (_handle_bind qq_number username r now now now) f
     = ((run (create_pending_binding qq_number username r now now) f).1,
        inr (py_str r))).
Proof.
  intros Hr. destruct (py_str_six_digits r Hr) as [Hlen Hdig].
  rewrite run_create_pending_binding. cbn [fst snd].
  split; [reflexivity|]. split; [reflexivity|].
  split; [exact Hlen|]. split; [exact Hdig|].
  split; [apply get_pending_with_pending|].
  split; [intros other Hne; apply get_pending_with_pending_ne; exact Hne|].
  intros Hallowed. rewrite run_handle_bind, Hallowed. reflexivity.
Qed.

Lemma create_pending_binding_stores_entry_witness :
  VERIFICATION_TIMEOUT = 300%Q
  ∧ (run (create_pending_binding "Q1" "bob" 424242 100 100) sample_file).2
    = py_str 424242
  ∧ String.length (py_str 424242) = 6
  ∧ all_digits (py_str 424242) = true
  ∧ get_pending
      (run (create_pending_binding "Q1" "bob" 424242 100 100) sample_file).1 "Q1"
    = Some {| pb_username := "bob"; pb_code := py_str 424242;
              pb_expire_time := (100 + VERIFICATION_TIMEOUT)%Q;
              pb_request_time := Some 100%Q |}
  ∧ (∀ other, other ≠ "Q1" →
       get_pending
         (run (create_pending_binding "Q1" "bob" 424242 100 100) sample_file).1
         other
       = get_pending sample_file other)
  ∧ ((run (check_bind_cooldown "Q1" 100) sample_file).2.1 = true →
     run (_handle_bind "Q1" "bob" 424242 100 100 100) sample_file
     = ((run (create_pending_binding "Q1" "bob" 424242 100 100) sample_file).1,
        inr (py_str 424242))).
Proof.
  apply (create_pending_binding_stores_entry sample_file "Q1" "bob" 424242 100).
  lia.
Defined.

(** C8, a stale entry: the entry of "Q1" was requested at time 0 and expired
    at time 300; nobody called [verify_binding]. At time 301 the entry is
    still in the file and the cooldown check lets a new request through. *)
Lemma stale_entry_counterexample :
  get_pending sample_file "Q1" = Some sample_pending
  ∧ (pb_expire_time sample_pending < 301)%Q
  ∧ run (check_bind_cooldown "Q1" 301) sample_file = (sample_file, (true, 0%Z))
  ∧ (run (check_bind_cooldown "Q1" 301) sample_file).2.1 ≠ false.
Proof. repeat split. discriminate. Qed.

(** C8, as the code has it: the cooldown check never looks at [expire_time].
    An entry, expired or not, blocks a request exactly while [now] is less
    than [BIND_COOLDOWN] seconds after its request time. So an expired entry
    whose expiry is at least [BIND_COOLDOWN] after its request time lets every
    later request through, and the entries the code creates at a single
    instant are of that kind (60 against 300 seconds). *)
Theorem stale_entry_blocks_only_within_cooldown (f : File) (qq_number : string)
    (now : Q) :
  ((run (check_bind_cooldown qq_number now) f).2.1 = false
   ↔ ∃ p, get_pending f qq_number = Some p
          ∧ (now < requested_at p + BIND_COOLDOWN)%Q)
  ∧ (∀ p, get_pending f qq_number = Some p →
          (requested_at p + BIND_COOLDOWN <= pb_expire_time p)%Q →
          (pb_expire_time p < now)%Q →
          run (check_bind_cooldown qq_number now) f = (f, (true, 0%Z)))
  ∧ (∀ (username : string) (r : Z) (t : Q),
       (requested_at (new_pending username r t t) + BIND_COOLDOWN
        <= pb_expire_time (new_pending username r t t))%Q).
Proof.
  split; [apply cooldown_blocks_iff|]. split.
  - intros p Hp Hwin Hexp. rewrite run_check_bind_cooldown, Hp.
    assert (E : Qltb (now - requested_at p) BIND_COOLDOWN = false).
    { apply Qltb_ge. unfold BIND_COOLDOWN in *. lra. }
    rewrite E. reflexivity.
  - intros username r t. unfold new_pending, requested_at; simpl.
    unfold BIND_COOLDOWN, VERIFICATION_TIMEOUT. lra.
Qed.

Lemma stale_entry_blocks_only_within_cooldown_witness :
  run (check_bind_cooldown "Q1" 301) sample_file = (sample_file, (true, 0%Z)).
Proof.
  apply (proj1 (proj2 (stale_entry_blocks_only_within_cooldown sample_file "Q1" 301))
           sample_pending).
  - reflexivity.
  - intros H. discriminate H.
  - reflexivity.
Defined.

(** * Missing or malformed data file (claim C9) *)



(** * Notification routing (claim C4) *)

Lemma run_find_notification_group (is_user_in_group : string → string → bool)
    (f : File) (qq_number : string) :
  run (_find_notification_group is_user_in_group qq_number) f
  = (f, resolveChannel (λ g, is_user_in_group g qq_number)
          (get_preference f qq_number) (listGroups f)).
Proof.
  unfold _find_notification_group, get_preference, listGroups, resolveChannel.
  unfold get_notification_group, get_groups.
  cbn [mbind prog_bind bind_prog run fst snd].
  destruct (bool_decide _); [reflexivity|].
  destruct (notifications_of (_load f) !! qq_number) as [g|]; [|reflexivity].
  destruct (str_truthy g && is_user_in_group g qq_number); reflexivity.
Qed.






(** * Lock acquisitions (claim C5) *)

(** C5, two acquisitions: a successful [verify_binding] takes the lock twice,
    and so does a [_handle_bind] that is let through. Between the two, another
    thread can run: two bind requests for "Q1", one second apart, are both
    granted when the second check runs before the first request has stored
    its entry (run one after the other, the second is refused with 59 seconds
    remaining); and a reader scheduled inside a successful verification finds
    the pending entry consumed and no binding yet. *)
Lemma two_lock_acquisitions_counterexample :
  acquisitions (verify_binding "Q1" "123456" 100) sample_file = 2
  ∧ acquisitions (_handle_bind "Q1" "bob" 424242 100 100 100) sample_file = 2
  ∧ (interleave [] (_handle_bind "Q1" "alice" 111111 10 10 10)
       (_handle_bind "Q1" "bob" 222222 11 11 11) (Json initial_document)).2
    = inl 59%Z
  ∧ (interleave [true; false] (_handle_bind "Q1" "alice" 111111 10 10 10)
       (_handle_bind "Q1" "bob" 222222 11 11 11) (Json initial_document)).1.2
    = inr "111111"
  ∧ (interleave [true; false] (_handle_bind "Q1" "alice" 111111 10 10 10)
       (_handle_bind "Q1" "bob" 222222 11 11 11) (Json initial_document)).2
    = inr "222222"
  ∧ (interleave [true; false] (verify_binding "Q1" "123456" 100)
       (get_binding "Q1") sample_file).1.2
    = (true, MSG_BOUND "alice")
  ∧ (interleave [true; false] (verify_binding "Q1" "123456" 100)
       (get_binding "Q1") sample_file).2
    = None.
Proof. repeat split. Qed.

Lemma acquisitions_verify_binding (f : File) (qq_number code : string) (now : Q) :
  acquisitions (verify_binding qq_number code now) f
  = if (run (verify_binding qq_number code now) f).2.1 then 2 else 1.
Proof.
  rewrite run_verify_binding. unfold verify_binding, get_pending.
  cbn [acquisitions].
  destruct (pending_bindings_of (_load f) !! qq_number) as [p|]; [|reflexivity].
  destruct (Qltb (pb_expire_time p) now); [reflexivity|].
  destruct (String.eqb (pb_code p) code); reflexivity.
Qed.

Lemma acquisitions_handle_bind (f : File) (qq_number username : string) (r : Z)
    (t_check t_expire t_request : Q) :
  acquisitions (_handle_bind qq_number username r t_check t_expire t_request) f
  = if (run (check_bind_cooldown qq_number t_check) f).2.1 then 2 else 1.
Proof.
  rewrite run_check_bind_cooldown. cbn [fst snd].
  unfold _handle_bind, check_bind_cooldown.
  cbn [mbind prog_bind bind_prog acquisitions]. fold (get_pending f qq_number).
  destruct (get_pending f qq_number) as [p|]; [|reflexivity].
  unfold requested_at.
  destruct (Qltb _ BIND_COOLDOWN); reflexivity.
Qed.

Lemma interleaved_requests_both_granted (f : File) (qq_number : string)
    (username1 username2 : string) (r1 r2 : Z)
    (t1 t_expire1 t_request1 t2 t_expire2 t_request2 : Q) :
  (run (check_bind_cooldown qq_number t1) f).2.1 = true →
  (run (check_bind_cooldown qq_number t2) f).2.1 = true →
  interleave [true; false]
    (_handle_bind qq_number username1 r1 t1 t_expire1 t_request1)
    (_handle_bind qq_number username2 r2 t2 t_expire2 t_request2) f
  = (Json (with_pending qq_number
             (new_pending username2 r2 t_expire2 t_request2)
             (with_pending qq_number
                (new_pending username1 r1 t_expire1 t_request1) (_load f))),
     inr (py_str r1), inr (py_str r2)).
Proof.
  rewrite !run_check_bind_cooldown. cbn [fst snd].
  unfold _handle_bind, check_bind_cooldown.
  cbn [interleave step mbind prog_bind bind_prog].
  fold (get_pending f qq_number).
  destruct (get_pending f qq_number) as [p|]; [|intros _ _; reflexivity].
  unfold requested_at.
  destruct (Qltb (t1 - _) BIND_COOLDOWN); [discriminate|].
  destruct (Qltb (t2 - _) BIND_COOLDOWN); [discriminate|].
  intros _ _. reflexivity.
Qed.

Lemma reader_inside_verification (f : File) (qq_number code : string) (now : Q) :
  (run (verify_binding qq_number code now) f).2.1 = true →
  interleave [true; false] (verify_binding qq_number code now)
    (get_binding qq_number) f
  = (run (verify_binding qq_number code now) f, lookupAccount f qq_number).
Proof.
  rewrite run_verify_binding. unfold verify_binding, get_pending, lookupAccount.
  cbn [interleave step run get_binding fst snd].
  destruct (pending_bindings_of (_load f) !! qq_number) as [p|]; [|discriminate].
  destruct (Qltb (pb_expire_time p) now); [discriminate|].
  destruct (String.eqb (pb_code p) code); [|discriminate].
  intros _. reflexivity.
Qed.

(** C5, as the code has it: every method of [DataManager] does its load,
    change and save inside a single acquisition of the lock, except
    [verify_binding], which takes the lock once when it fails and twice when
    it succeeds (it releases the lock after consuming the pending entry and
    [set_binding] takes it again). The bind-request flow [_handle_bind] takes
    the lock once when the cooldown refuses the request and twice when it is
    let through: once to check the cooldown, once to store the entry. So two
    requests for one identity whose checks both run before either entry is
    stored are both granted, the second entry replacing the first; and a
    reader scheduled between the two halves of a successful verification
    still gets the binding the identity had before. *)
Theorem lock_acquisitions_per_operation (f : File) :
  (∀ qq, acquisitions (get_binding qq) f = 1)
  ∧ (∀ username, acquisitions (get_qq_by_username username) f = 1)
  ∧ (∀ qq username, acquisitions (set_binding qq username) f = 1)
  ∧ (∀ qq now, acquisitions (check_bind_cooldown qq now) f = 1)
  ∧ (∀ qq username r t_expire t_request,
       acquisitions (create_pending_binding qq username r t_expire t_request) f
       = 1)
  ∧ (∀ qq group_id, acquisitions (set_notification_group qq group_id) f = 1)
  ∧ (∀ qq, acquisitions (get_notification_group qq) f = 1)
  ∧ (∀ group_id, acquisitions (add_group group_id) f = 1)
  ∧ (∀ group_id, acquisitions (remove_group group_id) f = 1)
  ∧ acquisitions get_groups f = 1
  ∧ (∀ qq code now,
       acquisitions (verify_binding qq code now) f
       = if (run (verify_binding qq code now) f).2.1 then 2 else 1)
  ∧ (∀ qq username r t_check t_expire t_request,
       acquisitions (_handle_bind qq username r t_check t_expire t_request) f
       = if (run (check_bind_cooldown qq t_check) f).2.1 then 2 else 1)
  ∧ (∀ qq username1 username2 r1 r2 t1 t_expire1 t_request1
       t2 t_expire2 t_request2,
       (run (check_bind_cooldown qq t1) f).2.1 = true →
       (run (check_bind_cooldown qq t2) f).2.1 = true →
       interleave [true; false]
         (_handle_bind qq username1 r1 t1 t_expire1 t_request1)
         (_handle_bind qq username2 r2 t2 t_expire2 t_request2) f
       = (Json (with_pending qq (new_pending username2 r2 t_expire2 t_request2)
                  (with_pending qq
                     (new_pending username1 r1 t_expire1 t_request1) (_load f))),
          inr (py_str r1), inr (py_str r2)))
  ∧ (∀ qq code now,
       (run (verify_binding qq code now) f).2.1 = true →
       interleave [true; false] (verify_binding qq code now) (get_binding qq) f
       = (run (verify_binding qq code now) f, lookupAccount f qq)).
Proof.
  repeat split; try reflexivity.
  - intros group_id. unfold add_group. cbn [acquisitions].
    destruct (bool_decide _); reflexivity.
  - intros group_id. unfold remove_group. cbn [acquisitions].
    destruct (bool_decide _); reflexivity.
  - intros. apply acquisitions_verify_binding.
  - intros. apply acquisitions_handle_bind.
  - intros. apply interleaved_requests_both_granted; assumption.
  - intros. apply reader_inside_verification; assumption.
Qed.

Lemma lock_acquisitions_per_operation_witness :
  interleave [true; false] (verify_binding "Q1" "123456" 100) (get_binding "Q1")
    sample_file
  = (run (verify_binding "Q1" "123456" 100) sample_file,
     lookupAccount sample_file "Q1").
Proof.
  apply (lock_acquisitions_per_operation sample_file). reflexivity.
Defined.

(** * Persistence (claim C6) *)

(** C6, a crash between the two steps of [_save]: the data file held the
    pending request of "Q1"; the process dies after the open and before the
    dump of the new document. The next reader finds neither the old nor the
    new document but a file that [_load] reads as the empty document. *)
Lemma crash_mid_save_counterexample :
  crash_after 1 (_save_steps initial_document) sample_file = Malformed
  ∧ Malformed ≠ sample_file
  ∧ Malformed ≠ Json initial_document
  ∧ _load (crash_after 1 (_save_steps initial_document) sample_file)
    = empty_document
  ∧ get_pending sample_file "Q1" = Some sample_pending
  ∧ get_pending (crash_after 1 (_save_steps initial_document) sample_file) "Q1"
    = None.
Proof. repeat split; discriminate. Qed.

(** C6, as the code has it: every persistence step rewrites the whole
    document in place. [_save] opens the data file itself for writing, which
    truncates it, and then dumps the document into it; no temporary file and
    no rename are involved. Once [_save] has returned the file holds exactly
    the saved document, whatever it held before. A crash before the open
    leaves the old file; a crash after the open and before the end of the
    dump leaves a file without valid JSON, which the next [_load] reads as
    the empty document. *)
Theorem save_rewrites_in_place (data : Document) (f : File) :
  _save_steps data = [OpenTruncate; Dump data]
  ∧ _save data f = Json data
  ∧ _load (_save data f) = data
  ∧ crash_after 0 (_save_steps data) f = f
  ∧ crash_after 1 (_save_steps data) f = Malformed
  ∧ _load (crash_after 1 (_save_steps data) f) = empty_document
  ∧ (∀ k : nat, (2 ≤ k)%nat → crash_after k (_save_steps data) f = Json data).
Proof.
  repeat split.
  intros k Hk. destruct k as [|[|k]]; [lia | lia | destruct k; reflexivity].
Qed.

(** * More on the link registry *)

Lemma reverse_after_cleanup (q u x : string) (data : Document) :
  match bindings_of data !! q with
  | Some o => if str_truthy o then delete o (user_qq_map_of data)
              else user_qq_map_of data
  | None => user_qq_map_of data
  end !! u = Some x →
  user_qq_map_of data !! u = Some x.
Proof.
  destruct (bindings_of data !! q) as [o|]; [|auto].
  destruct (str_truthy o); [|auto].
  intros H. apply lookup_delete_Some in H. tauto.
Qed.

Lemma set_binding_data_forward_frame (q u x : string) (data : Document) :
  x ≠ q → user_qq_map_of data !! u ≠ Some x →
  bindings_of (set_binding_data q u data) !! x = bindings_of data !! x.
Proof.
  intros Hxq Hux. unfold set_binding_data.
  unfold bindings_of at 1; cbn [bindings default from_option id].
  rewrite lookup_insert_ne by congruence.
  match goal with
  | |- context [match ?e with Some _ => _ | None => bindings_of data end] =>
      destruct e as [o|] eqn:Ho; [|reflexivity]
  end.
  apply reverse_after_cleanup in Ho.
  destruct (str_truthy o); [|reflexivity].
  apply lookup_delete_ne. congruence.
Qed.

Lemma set_binding_data_reverse_frame (q u a : string) (data : Document) :
  a ≠ u → bindings_of data !! q ≠ Some a →
  user_qq_map_of (set_binding_data q u data) !! a = user_qq_map_of data !! a.
Proof.
  intros Hau Hqa. unfold set_binding_data.
  unfold user_qq_map_of at 1; cbn [user_qq_map default from_option id].
  rewrite lookup_insert_ne by congruence.
  destruct (bindings_of data !! q) as [o|] eqn:Ho; [|reflexivity].
  destruct (str_truthy o); [|reflexivity].
  apply lookup_delete_ne. congruence.
Qed.

(** X1: [set_binding qq_number username] makes the two lookups answer the new
    pair and changes nothing else but the stale halves: the binding of any
    other identity that was not the account's previous identity is kept, the
    reverse entry of any other account that was not the identity's previous
    account is kept, and notification preferences, roster and pending entries
    are left as they were. *)
Theorem set_binding_touches_only_its_pair (f : File) (qq_number username : string) :
  lookupAccount (run (set_binding qq_number username) f).1 qq_number
  = Some username
  ∧ lookupIdentity (run (set_binding qq_number username) f).1 username
    = Some qq_number
  ∧ (∀ x, x ≠ qq_number → lookupIdentity f username ≠ Some x →
          lookupAccount (run (set_binding qq_number username) f).1 x
          = lookupAccount f x)
  ∧ (∀ a, a ≠ username → lookupAccount f qq_number ≠ Some a →
          lookupIdentity (run (set_binding qq_number username) f).1 a
          = lookupIdentity f a)
  ∧ (∀ x, get_preference (run (set_binding qq_number username) f).1 x
          = get_preference f x)
  ∧ listGroups (run (set_binding qq_number username) f).1 = listGroups f
  ∧ (∀ x, get_pending (run (set_binding qq_number username) f).1 x
          = get_pending f x).
Proof.
  rewrite run_set_binding. cbn [fst].
  split; [apply lookupAccount_set_binding|].
  split; [apply lookupIdentity_set_binding|].
  split; [intros x Hx Hu; apply set_binding_data_forward_frame; assumption|].
  split; [intros a Ha Hq; apply set_binding_data_reverse_frame; assumption|].
  repeat split.
Qed.



Lemma set_binding_bijection_nonempty_witness :
  bijection
    (bind_all [("Q1", "alice"); ("Q2", "alice"); ("Q1", "bob")]
       (Json empty_document)).
Proof.
  apply (set_binding_bijection_nonempty
           [("Q1", "alice"); ("Q2", "alice"); ("Q1", "bob")]).
  repeat constructor; discriminate.
Defined.

(** * More on verification *)

(** X3: [verify_binding] succeeds only with the stored code of a live
    entry: it returns [True] if and only if the identity has a pending entry
    that has not expired at [now] and whose code is the supplied one. When it
    returns [False], whatever the reason, no binding is created, changed or
    removed. *)
Theorem verify_binding_success_iff (f : File) (qq_number code : string) (now : Q) :
  ((run (verify_binding qq_number code now) f).2.1 = true
   ↔ ∃ p, get_pending f qq_number = Some p
          ∧ ¬ (pb_expire_time p < now)%Q
          ∧ pb_code p = code)
  ∧ ((run (verify_binding qq_number code now) f).2.1 = false →
     (∀ x, lookupAccount (run (verify_binding qq_number code now) f).1 x
           = lookupAccount f x)
     ∧ (∀ a, lookupIdentity (run (verify_binding qq_number code now) f).1 a
             = lookupIdentity f a)).
Proof.
  rewrite run_verify_binding.
  destruct (get_pending f qq_number) as [p|].
  - destruct (Qltb (pb_expire_time p) now) eqn:E.
    + apply Qltb_lt in E. cbn [fst snd]. split.
      * split; [discriminate|]. intros (p' & [= <-] & Hlive & _). contradiction.
      * intros _. split; intros; reflexivity.
    + apply Qltb_ge in E.
      destruct (String.eqb_spec (pb_code p) code) as [Hc|Hc]; cbn [fst snd].
      * split; [|discriminate]. split; [|reflexivity]. intros _.
        exists p. split; [reflexivity|]. split; [|exact Hc].
        intros Hlt. apply (Qlt_not_le _ _ Hlt E).
      * split.
        -- split; [discriminate|]. intros (p' & [= <-] & _ & Hc'). contradiction.
        -- intros _. split; intros; reflexivity.
  - cbn [fst snd]. split.
    + split; [discriminate|]. intros (p & Hp & _). discriminate Hp.
    + intros _. split; intros; reflexivity.
Qed.

(** X4: a verification code works once. After a successful
    [verify_binding] for an identity, every further [verify_binding] for that
    identity, with any code and at any time, reports that nothing is pending
    and leaves the file as it is. *)
Theorem verify_binding_consumes_code (f : File) (qq_number code : string)
    (now : Q) :
  (run (verify_binding qq_number code now) f).2.1 = true →
  ∀ (code' : string) (now' : Q),
    run (verify_binding qq_number code' now')
      (run (verify_binding qq_number code now) f).1
    = ((run (verify_binding qq_number code now) f).1, (false, MSG_NO_PENDING)).
Proof.
  intros Hok code' now'. rewrite (run_verify_binding f) in *.
  destruct (get_pending f qq_number) as [p|]; [|discriminate].
  destruct (Qltb (pb_expire_time p) now); [discriminate|].
  destruct (String.eqb (pb_code p) code); [|discriminate].
  cbn [fst]. rewrite run_verify_binding.
  rewrite get_pending_set_binding, get_pending_pop. reflexivity.
Qed.

Lemma verify_binding_consumes_code_witness :
  run (verify_binding "Q1" "123456" 200)
    (run (verify_binding "Q1" "123456" 100) sample_file).1
  = ((run (verify_binding "Q1" "123456" 100) sample_file).1,
     (false, MSG_NO_PENDING)).
Proof.
  apply (verify_binding_consumes_code sample_file "Q1" "123456" 100).
  reflexivity.
Defined.

(** * Bind request followed by verification *)

Lemma py_str_inj (r r' : Z) : py_str r = py_str r' → r = r'.
Proof. unfold py_str. apply pretty_Z_inj. Qed.

Lemma run_handle_bind_granted (f : File) (qq_number username : string) (r : Z)
    (t_check t_expire t_request : Q) :
  (run (check_bind_cooldown qq_number t_check) f).2.1 = true →
  run (_handle_bind qq_number username r t_check t_expire t_request) f
  = (Json (with_pending qq_number
             (new_pending username r t_expire t_request) (_load f)),
     inr (py_str r)).
Proof. intros H. rewrite run_handle_bind, H. reflexivity. Qed.

(** X5: a granted bind request followed by [/verify] with the code it handed
    out. If the verification happens no later than [VERIFICATION_TIMEOUT]
    seconds after the clock reading taken for the expiry, it succeeds and the
    identity is bound to the requested user name, in both directions, the
    pending entry being gone. If it happens later, it fails as expired, the
    entry is removed and the identity's binding is what it was before the
    request. *)
Theorem bind_request_then_verify (f : File) (qq_number username : string)
    (r : Z) (t_check t_expire t_request now : Q) :
  (run (check_bind_cooldown qq_number t_check) f).2.1 = true →
  ((now <= t_expire + VERIFICATION_TIMEOUT)%Q →
   (run (verify_binding qq_number (py_str r) now)
      (run (_handle_bind qq_number username r t_check t_expire t_request) f).1).2
   = (true, MSG_BOUND username)
   ∧ lookupAccount
       (run (verify_binding qq_number (py_str r) now)
          (run (_handle_bind qq_number username r t_check t_expire t_request) f).1).1
       qq_number = Some username
   ∧ lookupIdentity
       (run (verify_binding qq_number (py_str r) now)
          (run (_handle_bind qq_number username r t_check t_expire t_request) f).1).1
       username = Some qq_number
   ∧ get_pending
       (run (verify_binding qq_number (py_str r) now)
          (run (_handle_bind qq_number username r t_check t_expire t_request) f).1).1
       qq_number = None)
  ∧ ((t_expire + VERIFICATION_TIMEOUT < now)%Q →
     (run (verify_binding qq_number (py_str r) now)
        (run (_handle_bind qq_number username r t_check t_expire t_request) f).1).2
     = (false, MSG_EXPIRED)
     ∧ lookupAccount
         (run (verify_binding qq_number (py_str r) now)
            (run (_handle_bind qq_number username r t_check t_expire t_request) f).1).1
         qq_number = lookupAccount f qq_number
     ∧ get_pending
         (run (verify_binding qq_number (py_str r) now)
            (run (_handle_bind qq_number username r t_check t_expire t_request) f).1).1
         qq_number = None).
Proof.
  intros Hgranted. rewrite (run_handle_bind_granted f) by exact Hgranted.
  cbn [fst]. set (f1 := Json _).
  assert (Hp : get_pending f1 qq_number
               = Some (new_pending username r t_expire t_request))
    by apply get_pending_with_pending.
  rewrite run_verify_binding, Hp.
  cbn [new_pending pb_expire_time pb_code pb_username].
  split; intros Htime.
  - assert (E : Qltb (t_expire + VERIFICATION_TIMEOUT) now = false)
      by (apply Qltb_ge; exact Htime).
    rewrite E, String.eqb_refl. cbn [fst snd].
    split; [reflexivity|].
    split; [apply lookupAccount_set_binding|].
    split; [apply lookupIdentity_set_binding|].
    rewrite get_pending_set_binding. apply get_pending_pop.
  - apply Qltb_lt in Htime. rewrite Htime. cbn [fst snd].
    split; [reflexivity|]. split; [reflexivity|]. apply get_pending_pop.
Qed.

Lemma bind_request_then_verify_witness :
  (run (verify_binding "Q2" (py_str 654321) 400)
     (run (_handle_bind "Q2" "bob" 654321 100 100 100) sample_file).1).2
  = (true, MSG_BOUND "bob")
  ∧ lookupAccount
      (run (verify_binding "Q2" (py_str 654321) 400)
         (run (_handle_bind "Q2" "bob" 654321 100 100 100) sample_file).1).1
      "Q2" = Some "bob"
  ∧ lookupIdentity
      (run (verify_binding "Q2" (py_str 654321) 400)
         (run (_handle_bind "Q2" "bob" 654321 100 100 100) sample_file).1).1
      "bob" = Some "Q2"
  ∧ get_pending
      (run (verify_binding "Q2" (py_str 654321) 400)
         (run (_handle_bind "Q2" "bob" 654321 100 100 100) sample_file).1).1
      "Q2" = None.
Proof.
  apply (bind_request_then_verify sample_file "Q2" "bob" 654321 100 100 100 400).
  - reflexivity.
  - intros H. discriminate H.
Defined.

(** X6: a new request replaces the code of the previous one. When a second
    pending entry is created for an identity with a different drawn integer,
    [/verify] with the first code, before the second entry expires, is
    answered "wrong code": nothing is bound and the second entry stays. *)
Theorem new_request_invalidates_old_code (f : File) (qq_number : string)
    (username username' : string) (r r' : Z)
    (t_expire t_request t_expire' t_request' now : Q) :
  r ≠ r' →
  (now <= t_expire' + VERIFICATION_TIMEOUT)%Q →
  run (verify_binding qq_number (py_str r) now)
    (run (create_pending_binding qq_number username' r' t_expire' t_request')
       (run (create_pending_binding qq_number username r t_expire t_request) f).1).1
  = ((run (create_pending_binding qq_number username' r' t_expire' t_request')
        (run (create_pending_binding qq_number username r t_expire t_request) f).1).1,
     (false, MSG_WRONG_CODE))
  ∧ get_pending
      (run (create_pending_binding qq_number username' r' t_expire' t_request')
         (run (create_pending_binding qq_number username r t_expire t_request) f).1).1
      qq_number
    = Some (new_pending username' r' t_expire' t_request').
Proof.
  intros Hr Htime. rewrite !run_create_pending_binding. cbn [fst _load].
  set (f2 := Json _).
  assert (Hp : get_pending f2 qq_number
               = Some (new_pending username' r' t_expire' t_request'))
    by apply get_pending_with_pending.
  split; [|exact Hp].
  rewrite run_verify_binding, Hp.
  cbn [new_pending pb_expire_time pb_code pb_username].
  assert (E : Qltb (t_expire' + VERIFICATION_TIMEOUT) now = false)
    by (apply Qltb_ge; exact Htime).
  rewrite E.
  destruct (String.eqb_spec (py_str r') (py_str r)) as [Heq|_]; [|reflexivity].
  apply py_str_inj in Heq. congruence.
Qed.

Lemma new_request_invalidates_old_code_witness :
  run (verify_binding "Q1" (py_str 111111) 100)
    (run (create_pending_binding "Q1" "bob" 222222 70 70)
       (run (create_pending_binding "Q1" "alice" 111111 0 0)
          (Json initial_document)).1).1
  = ((run (create_pending_binding "Q1" "bob" 222222 70 70)
        (run (create_pending_binding "Q1" "alice" 111111 0 0)
           (Json initial_document)).1).1,
     (false, MSG_WRONG_CODE))
  ∧ get_pending
      (run (create_pending_binding "Q1" "bob" 222222 70 70)
         (run (create_pending_binding "Q1" "alice" 111111 0 0)
            (Json initial_document)).1).1
      "Q1"
    = Some (new_pending "bob" 222222 70 70).
Proof.
  apply (new_request_invalidates_old_code (Json initial_document) "Q1"
           "alice" "bob" 111111 222222 0 0 70 70 100).
  - discriminate.
  - intros H. discriminate H.
Defined.

(** X7: asking for a link never touches a link. Whether [_handle_bind] is
    granted or refused, every identity keeps its binding, every account its
    identity, every identity its notification preference, the roster is the
    same, and the pending entries of the other identities are the same. *)
Theorem handle_bind_keeps_links (f : File) (qq_number username : string)
    (r : Z) (t_check t_expire t_request : Q) :
  (∀ x, lookupAccount
          (run (_handle_bind qq_number username r t_check t_expire t_request) f).1 x
        = lookupAccount f x)
  ∧ (∀ a, lookupIdentity
            (run (_handle_bind qq_number username r t_check t_expire t_request) f).1 a
          = lookupIdentity f a)
  ∧ (∀ x, get_preference
            (run (_handle_bind qq_number username r t_check t_expire t_request) f).1 x
          = get_preference f x)
  ∧ listGroups
      (run (_handle_bind qq_number username r t_check t_expire t_request) f).1
    = listGroups f
  ∧ (∀ other, other ≠ qq_number →
       get_pending
         (run (_handle_bind qq_number username r t_check t_expire t_request) f).1
         other
       = get_pending f other).
Proof.
  rewrite run_handle_bind.
  destruct ((run (check_bind_cooldown qq_number t_check) f).2.1); cbn [fst].
  - repeat split. intros other Hne. apply get_pending_with_pending_ne, Hne.
  - repeat split.
Qed.

(** * The group roster *)

Lemma list_remove_notin (x : string) (l : list string) :
  x ∉ l → list_remove x l = l.
Proof.
  induction l as [|y l IH]; [reflexivity|]. intros Hx. cbn [list_remove].
  rewrite bool_decide_eq_false_2 by (intros ->; apply Hx; left).
  f_equal. apply IH. intros Hin. apply Hx. right. exact Hin.
Qed.

Lemma list_remove_first (x : string) (l1 l2 : list string) :
  x ∉ l1 → list_remove x (l1 ++ x :: l2)%list = (l1 ++ l2)%list.
Proof.
  induction l1 as [|y l1 IH]; intros Hx; cbn [list_remove app].
  - rewrite bool_decide_eq_true_2 by reflexivity. reflexivity.
  - rewrite bool_decide_eq_false_2 by (intros ->; apply Hx; left).
    f_equal. apply IH. intros Hin. apply Hx. right. exact Hin.
Qed.

Lemma list_remove_subset (x y : string) (l : list string) :
  y ∈ list_remove x l → y ∈ l.
Proof.
  induction l as [|z l IH]; cbn [list_remove]; [auto|].
  case_bool_decide as Hxz.
  - intros Hin. right. exact Hin.
  - intros Hin. apply elem_of_cons in Hin as [->|Hin]; [left | right; auto].
Qed.

Lemma list_remove_other (x y : string) (l : list string) :
  y ≠ x → y ∈ l → y ∈ list_remove x l.
Proof.
  intros Hne. induction l as [|z l IH]; cbn [list_remove]; [auto|].
  intros Hin. apply elem_of_cons in Hin as [->|Hin].
  - rewrite bool_decide_eq_false_2 by congruence. left.
  - case_bool_decide as Hxz; [exact Hin | right; auto].
Qed.

Lemma list_remove_NoDup (x : string) (l : list string) :
  NoDup l → NoDup (list_remove x l) ∧ x ∉ list_remove x l.
Proof.
  induction 1 as [|y l Hy Hnd IH]; cbn [list_remove].
  - split; [constructor | apply not_elem_of_nil].
  - case_bool_decide as Hxy.
    + subst y. split; assumption.
    + destruct IH as [IH1 IH2]. split.
      * constructor; [|exact IH1]. intros Hin. apply Hy.
        eapply list_remove_subset, Hin.
      * intros Hin. apply elem_of_cons in Hin as [->|Hin]; [congruence|auto].
Qed.

Lemma listGroups_add_group (f : File) (group_id : string) :
  listGroups (run (add_group group_id) f).1
  = if bool_decide (group_id ∈ listGroups f) then listGroups f
    else (listGroups f ++ [group_id])%list.
Proof.
  unfold add_group, listGroups. cbn [run get_groups fst snd].
  destruct (bool_decide _); reflexivity.
Qed.

Lemma listGroups_remove_group (f : File) (group_id : string) :
  listGroups (run (remove_group group_id) f).1
  = list_remove group_id (listGroups f).
Proof.
  unfold remove_group, listGroups. cbn [run get_groups fst snd].
  case_bool_decide as Hin; [reflexivity|].
  cbn [fst snd]. symmetry. apply list_remove_notin, Hin.
Qed.

(** X8: the roster never holds a group twice. From a data file whose roster
    has no duplicate (a missing or fresh file in particular), every sequence
    of joins and leaves of the bot leaves a roster without duplicates. *)
Theorem roster_stays_duplicate_free (events : list RosterEvent) (f : File) :
  NoDup (listGroups f) → NoDup (listGroups (roster_events events f)).
Proof.
  revert f. induction events as [|e events IH]; intros f Hnd; [exact Hnd|].
  cbn [roster_events foldl]. apply IH. destruct e as [g|g]; cbn [on_roster_event].
  - unfold on_group_join. rewrite listGroups_add_group.
    case_bool_decide as Hin; [exact Hnd|].
    apply NoDup_app. split; [exact Hnd|]. split.
    + intros x Hx Hx'. apply list_elem_of_singleton in Hx'. subst x. auto.
    + apply NoDup_singleton.
  - unfold on_group_leave. rewrite listGroups_remove_group.
    apply list_remove_NoDup, Hnd.
Qed.

Lemma roster_stays_duplicate_free_witness :
  NoDup (listGroups
           (roster_events [BotJoined "G1"; BotJoined "G2"; BotJoined "G1";
                           BotLeft "G2"; BotJoined "G2"] Missing)).
Proof.
  apply (roster_stays_duplicate_free
           [BotJoined "G1"; BotJoined "G2"; BotJoined "G1";
            BotLeft "G2"; BotJoined "G2"] Missing).
  constructor.
Defined.

(** X9: [add_group] appends. A group that is not in the roster is added at
    its end, the groups already there keeping their order; a group that is in
    the roster leaves the file untouched. Either way the group is in the
    roster afterwards, every other group is in it exactly if it was before,
    and nothing but the roster changes. *)
Theorem add_group_appends (f : File) (group_id : string) :
  (group_id ∉ listGroups f →
   listGroups (run (add_group group_id) f).1 = (listGroups f ++ [group_id])%list)
  ∧ (group_id ∈ listGroups f → run (add_group group_id) f = (f, tt))
  ∧ group_id ∈ listGroups (run (add_group group_id) f).1
  ∧ (∀ x, x ≠ group_id →
          (x ∈ listGroups (run (add_group group_id) f).1 ↔ x ∈ listGroups f))
  ∧ (∀ x, lookupAccount (run (add_group group_id) f).1 x = lookupAccount f x)
  ∧ (∀ a, lookupIdentity (run (add_group group_id) f).1 a = lookupIdentity f a)
  ∧ (∀ x, get_preference (run (add_group group_id) f).1 x = get_preference f x)
  ∧ (∀ x, get_pending (run (add_group group_id) f).1 x = get_pending f x).
Proof.
  split; [|split; [|split; [|split]]].
  - intros Hnot. rewrite listGroups_add_group.
    rewrite bool_decide_eq_false_2 by exact Hnot. reflexivity.
  - intros Hin. unfold add_group. cbn [run].
    change (groups_of (_load f)) with (listGroups f).
    rewrite bool_decide_eq_true_2 by exact Hin. reflexivity.
  - rewrite listGroups_add_group. case_bool_decide as Hin; [exact Hin|].
    apply elem_of_app. right. left.
  - intros x Hx. rewrite listGroups_add_group. case_bool_decide; [tauto|].
    rewrite elem_of_app, list_elem_of_singleton. tauto.
  - unfold add_group. cbn [run].
    destruct (bool_decide _); repeat split.
Qed.

(** X10: [remove_group] drops the first occurrence of the group and nothing
    else. If the roster is [l1 ++ group_id :: l2] with [group_id] not in
    [l1], it becomes [l1 ++ l2]; if the group is not in the roster the file
    is untouched. On a roster without duplicates the group is gone
    afterwards and every other group stays. A bot that joins a group it was
    not in and leaves it again has the roster it started with. *)
Theorem remove_group_drops_first (f : File) (group_id : string) :
  (∀ l1 l2, listGroups f = (l1 ++ group_id :: l2)%list → group_id ∉ l1 →
            listGroups (run (remove_group group_id) f).1 = (l1 ++ l2)%list)
  ∧ (group_id ∉ listGroups f → run (remove_group group_id) f = (f, tt))
  ∧ (NoDup (listGroups f) →
     group_id ∉ listGroups (run (remove_group group_id) f).1)
  ∧ (∀ x, x ≠ group_id →
          (x ∈ listGroups (run (remove_group group_id) f).1 ↔ x ∈ listGroups f))
  ∧ (group_id ∉ listGroups f →
     listGroups (run (remove_group group_id) (run (add_group group_id) f).1).1
     = listGroups f).
Proof.
  split; [|split; [|split; [|split]]].
  - intros l1 l2 Hl Hnot. rewrite listGroups_remove_group, Hl.
    apply list_remove_first, Hnot.
  - intros Hnot. unfold remove_group. cbn [run].
    change (groups_of (_load f)) with (listGroups f).
    rewrite bool_decide_eq_false_2 by exact Hnot. reflexivity.
  - intros Hnd. rewrite listGroups_remove_group. apply list_remove_NoDup, Hnd.
  - intros x Hx. rewrite listGroups_remove_group. split.
    + apply list_remove_subset.
    + apply list_remove_other, Hx.
  - intros Hnot. rewrite listGroups_remove_group, listGroups_add_group.
    rewrite bool_decide_eq_false_2 by exact Hnot.
    rewrite (list_remove_first group_id (listGroups f) []) by exact Hnot.
    apply app_nil_r.
Qed.

Lemma remove_group_drops_first_witness :
  listGroups
    (run (remove_group "G1")
       (Json (with_groups ["G0"; "G1"; "G2"; "G1"] initial_document))).1
  = (["G0"] ++ ["G2"; "G1"])%list.
Proof.
  apply (proj1 (remove_group_drops_first
                  (Json (with_groups ["G0"; "G1"; "G2"; "G1"] initial_document))
                  "G1") ["G0"] ["G2"; "G1"]).
  - reflexivity.
  - intros H. apply list_elem_of_singleton in H. discriminate H.
Defined.

(** * Notification preferences *)

Lemma run_set_notification_group (f : File) (qq_number group_id : string) :
  run (set_notification_group qq_number group_id) f
  = (Json {| bindings := bindings (_load f);
             user_qq_map := user_qq_map (_load f);
             notifications :=
               Some (<[qq_number := group_id]> (notifications_of (_load f)));
             groups := groups (_load f);
             pending_bindings := pending_bindings (_load f) |}, tt).
Proof. reflexivity. Qed.

Lemma get_preference_load (f : File) (x : string) :
  get_preference f x = notifications_of (_load f) !! x.
Proof. reflexivity. Qed.

(** X11: the notification preference is a last-write-wins register per
    identity. After [set_notification_group qq_number group_id],
    [get_notification_group qq_number] answers [group_id]; the preferences of
    the other identities, the bindings, the roster and the pending entries
    are untouched; and a second call for the same identity leaves the file a
    single call with the second value leaves. *)
Theorem set_notification_group_last_write_wins (f : File)
    (qq_number group_id : string) :
  get_preference (run (set_notification_group qq_number group_id) f).1 qq_number
  = Some group_id
  ∧ (∀ x, x ≠ qq_number →
          get_preference (run (set_notification_group qq_number group_id) f).1 x
          = get_preference f x)
  ∧ (∀ x, lookupAccount (run (set_notification_group qq_number group_id) f).1 x
          = lookupAccount f x)
  ∧ (∀ a, lookupIdentity (run (set_notification_group qq_number group_id) f).1 a
          = lookupIdentity f a)
  ∧ listGroups (run (set_notification_group qq_number group_id) f).1
    = listGroups f
  ∧ (∀ x, get_pending (run (set_notification_group qq_number group_id) f).1 x
          = get_pending f x)
  ∧ (∀ group_id',
       run (set_notification_group qq_number group_id')
         (run (set_notification_group qq_number group_id) f).1
       = run (set_notification_group qq_number group_id') f).
Proof.
  rewrite run_set_notification_group. cbn [fst].
  split; [rewrite get_preference_load; apply lookup_insert_eq|].
  split.
  { intros x Hx. rewrite !get_preference_load. cbn.
    apply lookup_insert_ne. congruence. }
  repeat split.
  intros group_id'. rewrite !run_set_notification_group.
  cbn [_load bindings user_qq_map notifications groups pending_bindings].
  unfold notifications_of at 1. cbn [notifications default from_option id].
  rewrite insert_insert_eq. reflexivity.
Qed.

Lemma run_handle_noti (f : File) (group_id qq_number : string) :
  run (_handle_noti group_id qq_number) f
  = if opt_truthy (lookupAccount f qq_number)
    then ((run (set_notification_group qq_number group_id) f).1,
          GroupMessage group_id MSG_GROUP_SET)
    else (f, GroupMessage group_id MSG_NOT_BOUND_GROUP).
Proof.
  unfold _handle_noti, lookupAccount, get_binding.
  cbn [mbind prog_bind bind_prog run fst snd].
  destruct (opt_truthy _); reflexivity.
Qed.

Lemma run_handle_noti_private (f : File) (qq_number : string) :
  run (_handle_noti_private qq_number) f
  = if opt_truthy (lookupAccount f qq_number)
    then ((run (set_notification_group qq_number "private") f).1,
          PrivateMessage qq_number MSG_PRIVATE_SET)
    else (f, PrivateMessage qq_number MSG_NOT_BOUND_PRIVATE).
Proof.
  unfold _handle_noti_private, lookupAccount, get_binding.
  cbn [mbind prog_bind bind_prog run fst snd].
  destruct (opt_truthy _); reflexivity.
Qed.

Lemma opt_truthy_iff (o : option string) :
  opt_truthy o = true ↔ ∃ s, o = Some s ∧ s ≠ "".
Proof.
  destruct o as [s|]; cbn.
  - destruct s; cbn.
    + split; [discriminate|]. intros (s & [= <-] & H). congruence.
    + split; [|reflexivity]. intros _. eexists. split; [reflexivity|discriminate].
  - split; [discriminate|]. intros (s & H & _). discriminate H.
Qed.

(** X12: [/noti] needs a link. For an identity that has no binding, or is
    bound to the empty user name, [_handle_noti] and [_handle_noti_private]
    answer "not bound yet" (in the group, respectively in private) and leave
    the data file exactly as it is. For an identity bound to a non-empty user
    name they store the group, respectively "private", as its preference
    and confirm. Exactly one message is sent in every case. *)
Theorem handle_noti_requires_link (f : File) (group_id qq_number : string) :
  ((∀ s, lookupAccount f qq_number = Some s → s = "") →
   run (_handle_noti group_id qq_number) f
   = (f, GroupMessage group_id MSG_NOT_BOUND_GROUP)
   ∧ run (_handle_noti_private qq_number) f
     = (f, PrivateMessage qq_number MSG_NOT_BOUND_PRIVATE))
  ∧ (∀ s, lookupAccount f qq_number = Some s → s ≠ "" →
       (run (_handle_noti group_id qq_number) f).2
       = GroupMessage group_id MSG_GROUP_SET
       ∧ get_preference (run (_handle_noti group_id qq_number) f).1 qq_number
         = Some group_id
       ∧ (run (_handle_noti_private qq_number) f).2
         = PrivateMessage qq_number MSG_PRIVATE_SET
       ∧ get_preference (run (_handle_noti_private qq_number) f).1 qq_number
         = Some "private").
Proof.
  rewrite run_handle_noti, run_handle_noti_private. split.
  - intros Hnone.
    assert (E : opt_truthy (lookupAccount f qq_number) = false).
    { destruct (opt_truthy _) eqn:E; [|reflexivity].
      apply opt_truthy_iff in E as (s & Hs & Hne). apply Hnone in Hs. congruence. }
    rewrite E. split; reflexivity.
  - intros s Hs Hne.
    assert (E : opt_truthy (lookupAccount f qq_number) = true)
      by (apply opt_truthy_iff; eauto).
    rewrite E. cbn [fst snd]. rewrite !run_set_notification_group. cbn [fst].
    rewrite !get_preference_load. cbn. rewrite !lookup_insert_eq.
    repeat split.
Qed.

Lemma handle_noti_requires_link_witness :
  run (_handle_noti "G1" "Q1") sample_file
  = (sample_file, GroupMessage "G1" MSG_NOT_BOUND_GROUP)
  ∧ run (_handle_noti_private "Q1") sample_file
    = (sample_file, PrivateMessage "Q1" MSG_NOT_BOUND_PRIVATE).
Proof.
  apply (proj1 (handle_noti_requires_link sample_file "G1" "Q1")).
  intros s H. discriminate H.
Defined.

(** X13: [/noti] steers the routing. Once an identity bound to a non-empty
    user name has sent [/noti] in private, [_find_notification_group] answers
    the private channel for it, whatever the roster and the memberships. Once
    it has sent [/noti] in a group (whose id is neither empty nor
    "private"), [_find_notification_group] answers that group as long as
    the identity is a member of it. *)
Theorem noti_then_routing (is_user_in_group : string → string → bool)
    (f : File) (group_id qq_number s : string) :
  lookupAccount f qq_number = Some s → s ≠ "" →
  (run (_find_notification_group is_user_in_group qq_number)
     (run (_handle_noti_private qq_number) f).1).2 = None
  ∧ (group_id ≠ "" → group_id ≠ "private" →
     is_user_in_group group_id qq_number = true →
     (run (_find_notification_group is_user_in_group qq_number)
        (run (_handle_noti group_id qq_number) f).1).2 = Some group_id).
Proof.
  intros Hs Hne.
  assert (E : opt_truthy (lookupAccount f qq_number) = true)
    by (apply opt_truthy_iff; eauto).
  rewrite run_handle_noti, run_handle_noti_private, E. cbn [fst].
  rewrite !run_find_notification_group. cbn [snd].
  rewrite !run_set_notification_group. cbn [fst].
  rewrite !get_preference_load. cbn [_load notifications_of notifications
    default from_option id]. rewrite !lookup_insert_eq.
  split; [reflexivity|].
  intros Hg Hp Hin. unfold resolveChannel.
  rewrite bool_decide_eq_false_2 by congruence.
  rewrite (str_truthy_true _ Hg), Hin. reflexivity.
Qed.

Lemma noti_then_routing_witness :
  (run (_find_notification_group (λ _ _, true) "Q1")
     (run (_handle_noti_private "Q1") routing_file).1).2 = None
  ∧ (run (_find_notification_group (λ _ _, true) "Q1")
       (run (_handle_noti "G2" "Q1") routing_file).1).2 = Some "G2".
Proof.
  split.
  - apply (noti_then_routing (λ _ _, true) routing_file "G2" "Q1" "alice");
      [reflexivity | discriminate].
  - apply (noti_then_routing (λ _ _, true) routing_file "G2" "Q1" "alice");
      [reflexivity | discriminate | discriminate | discriminate | reflexivity].
Defined.

(** * Webhook notifications *)

Lemma run_bind {A C : Type} (p : Prog A) (k : A → Prog C) (f : File) :
  run (p ≫= k) f = run (k (run p f).2) (run p f).1.
Proof.
  revert f. induction p as [a|B body k' IH]; intros f; [reflexivity|].
  cbn [mbind prog_bind bind_prog run]. destruct (body f) as [f' b].
  apply IH.
Qed.







(** * Events of the chat client *)

Lemma string_app_empty_r (s : string) : s +:+ "" = s.
Proof.
  induction s as [|c s IH]; [reflexivity|].
  change (String c s +:+ "") with (String c (s +:+ "")). rewrite IH. reflexivity.
Qed.

Lemma string_app_assoc (a b c : string) : (a +:+ b) +:+ c = a +:+ (b +:+ c).
Proof.
  induction a as [|x a IH]; [reflexivity|].
  change (String x ((a +:+ b) +:+ c) = String x (a +:+ (b +:+ c))).
  rewrite IH. reflexivity.
Qed.

Lemma concat_empty_cons (s : string) (l : list string) :
  String.concat "" (s :: l) = s +:+ String.concat "" l.
Proof.
  destruct l as [|t l]; cbn [String.concat].
  - symmetry. apply string_app_empty_r.
  - reflexivity.
Qed.

Lemma concat_empty_app (l1 l2 : list string) :
  String.concat "" (l1 ++ l2)%list
  = String.concat "" l1 +:+ String.concat "" l2.
Proof.
  induction l1 as [|s l1 IH]; [reflexivity|].
  change ((s :: l1) ++ l2)%list with (s :: (l1 ++ l2))%list.
  rewrite !concat_empty_cons, IH, string_app_assoc. reflexivity.
Qed.

(** X15: [_extract_text] keeps the text and nothing else. A string message is
    returned as it is and a message that is neither a string nor a list gives
    the empty string. On a list, the text of a concatenation is the
    concatenation of the texts, a segment that is not a dictionary of type
    "text" contributes nothing, and a text segment contributes its text (the
    empty string when the text is missing). *)
Theorem extract_text_concatenates :
  (∀ s, _extract_text (MsgStr s) = s)
  ∧ _extract_text MsgOther = ""
  ∧ _extract_text (MsgList []) = ""
  ∧ (∀ segs1 segs2,
       _extract_text (MsgList (segs1 ++ segs2))
       = _extract_text (MsgList segs1) +:+ _extract_text (MsgList segs2))
  ∧ (∀ seg segs, segment_text seg = None →
       _extract_text (MsgList (seg :: segs)) = _extract_text (MsgList segs))
  ∧ (∀ text segs,
       _extract_text (MsgList (SegDict (Some "text") text :: segs))
       = default "" text +:+ _extract_text (MsgList segs))
  ∧ (∀ seg_type text, seg_type ≠ Some "text" →
       segment_text (SegDict seg_type text) = None).
Proof.
  split; [reflexivity|]. split; [reflexivity|]. split; [reflexivity|].
  split; [|split; [|split]].
  - intros segs1 segs2. cbn [_extract_text].
    rewrite omap_app. apply concat_empty_app.
  - intros seg segs Hnone. cbn [_extract_text omap list_omap].
    rewrite Hnone. reflexivity.
  - intros text segs. cbn [_extract_text omap list_omap segment_text].
    rewrite bool_decide_eq_true_2 by reflexivity. apply concat_empty_cons.
  - intros seg_type text Hne. cbn [segment_text].
    rewrite bool_decide_eq_false_2 by exact Hne. reflexivity.
Qed.

Lemma pretty_N_go_nonempty (x : N) (s : string) :
  s ≠ "" → pretty_N_go x s ≠ "".
Proof.
  revert s. induction (N.lt_wf_0 x) as [x _ IH]; intros s Hs.
  destruct (decide (x = 0)%N) as [->|Hx].
  - rewrite pretty_N_go_0. exact Hs.
  - rewrite pretty_N_go_step by lia. apply IH.
    + apply N.div_lt; lia.
    + discriminate.
Qed.

Lemma py_str_nonempty (n : Z) : py_str n ≠ "".
Proof.
  destruct n as [|p|p]; unfold py_str, pretty, pretty_Z.
  - discriminate.
  - unfold pretty, pretty_positive, pretty, pretty_N.
    rewrite decide_False by discriminate.
    rewrite pretty_N_go_step by lia. apply pretty_N_go_nonempty. discriminate.
  - change ("-" +:+ ?s) with (String "-" s). discriminate.
Qed.

Lemma str_field_inj (a b : option Z) : str_field a = str_field b → a = b.
Proof.
  destruct a as [x|], b as [y|]; cbn [str_field]; intros H.
  - f_equal. apply py_str_inj, H.
  - exfalso. apply (py_str_nonempty x H).
  - exfalso. apply (py_str_nonempty y). symmetry. exact H.
  - reflexivity.
Qed.

Lemma add_group_member (f : File) (group_id : string) :
  group_id ∈ listGroups (run (add_group group_id) f).1.
Proof.
  rewrite listGroups_add_group. case_bool_decide as Hin; [exact Hin|].
  apply elem_of_app. right. left.
Qed.

(** X16: only the bot's own joins and leaves move the roster. A notice whose
    [user_id] and [self_id] differ (one of them may be missing), or whose type
    is neither "group_increase" nor "group_decrease", leaves the data file
    exactly as it is. When the two ids agree, a "group_increase" notice
    puts the group in the roster and a "group_decrease" notice takes it out
    of a duplicate-free roster. Two missing ids count as agreeing. *)
Theorem notice_events_track_the_bot (f : File) (data : Notice) :
  (nt_user_id data ≠ nt_self_id data →
   run (_handle_notice_event data) f = (f, tt))
  ∧ (notice_type data ≠ Some "group_increase" →
     notice_type data ≠ Some "group_decrease" →
     run (_handle_notice_event data) f = (f, tt))
  ∧ (notice_type data = Some "group_increase" →
     nt_user_id data = nt_self_id data →
     str_field (nt_group_id data)
     ∈ listGroups (run (_handle_notice_event data) f).1)
  ∧ (notice_type data = Some "group_decrease" →
     nt_user_id data = nt_self_id data →
     NoDup (listGroups f) →
     str_field (nt_group_id data)
     ∉ listGroups (run (_handle_notice_event data) f).1).
Proof.
  unfold _handle_notice_event. split; [|split; [|split]].
  - intros Hne.
    assert (E : bool_decide (str_field (nt_user_id data)
                             = str_field (nt_self_id data)) = false).
    { apply bool_decide_eq_false_2. intros H. apply Hne, str_field_inj, H. }
    rewrite E. repeat case_bool_decide; reflexivity.
  - intros H1 H2. rewrite !bool_decide_eq_false_2 by assumption. reflexivity.
  - intros Ht Hid. rewrite Ht, Hid.
    rewrite !bool_decide_eq_true_2 by reflexivity.
    apply add_group_member.
  - intros Ht Hid Hnd. rewrite Ht, Hid.
    rewrite bool_decide_eq_false_2 by discriminate.
    rewrite !bool_decide_eq_true_2 by reflexivity.
    unfold on_group_leave. rewrite listGroups_remove_group.
    apply list_remove_NoDup, Hnd.
Qed.

Lemma notice_events_track_the_bot_witness :
  run (_handle_notice_event
         {| notice_type := Some "group_decrease"; nt_user_id := Some 10001%Z;
            nt_group_id := Some 777%Z; nt_self_id := Some 42%Z |})
    routing_file
  = (routing_file, tt).
Proof.
  apply (proj1 (notice_events_track_the_bot routing_file
                  {| notice_type := Some "group_decrease";
                     nt_user_id := Some 10001%Z;
                     nt_group_id := Some 777%Z; nt_self_id := Some 42%Z |})).
  discriminate.
Defined.

Lemma add_group_keeps_rest (f : File) (group_id : string) :
  (∀ x, lookupAccount (run (add_group group_id) f).1 x = lookupAccount f x)
  ∧ (∀ a, lookupIdentity (run (add_group group_id) f).1 a = lookupIdentity f a)
  ∧ (∀ x, get_preference (run (add_group group_id) f).1 x = get_preference f x)
  ∧ (∀ x, get_pending (run (add_group group_id) f).1 x = get_pending f x).
Proof.
  unfold add_group. cbn [run]. destruct (bool_decide _); repeat split.
Qed.

Lemma run_sync_group_list_cons (group : option Z) (rest : list (option Z))
    (f : File) :
  run (_sync_group_list (group :: rest)) f
  = run (_sync_group_list rest)
      (if str_truthy (str_field group)
       then (run (add_group (str_field group)) f).1 else f).
Proof.
  cbn [_sync_group_list]. rewrite run_bind.
  destruct (str_truthy (str_field group)); reflexivity.
Qed.

(** X17: the start-up synchronisation only adds. After [_sync_group_list] on
    the list the chat client returned, the roster is the old roster, in its
    old order, followed by groups of that list; every group of the list that
    has an id is in it; a duplicate-free roster stays duplicate-free; and the
    bindings, preferences and pending entries are untouched. No group is ever
    removed, so a group the bot left while it was not running stays in the
    roster. *)
Theorem sync_group_list_only_adds (group_list : list (option Z)) (f : File) :
  (∃ added,
     listGroups (run (_sync_group_list group_list) f).1
     = (listGroups f ++ added)%list
     ∧ ∀ g, g ∈ added → ∃ n, Some n ∈ group_list ∧ g = py_str n)
  ∧ (∀ n, Some n ∈ group_list →
          py_str n ∈ listGroups (run (_sync_group_list group_list) f).1)
  ∧ (NoDup (listGroups f) →
     NoDup (listGroups (run (_sync_group_list group_list) f).1))
  ∧ (∀ x, lookupAccount (run (_sync_group_list group_list) f).1 x
          = lookupAccount f x)
  ∧ (∀ x, get_preference (run (_sync_group_list group_list) f).1 x
          = get_preference f x)
  ∧ (∀ x, get_pending (run (_sync_group_list group_list) f).1 x
          = get_pending f x).
Proof.
  revert f. induction group_list as [|group rest IH]; intros f.
  - cbn [_sync_group_list run fst]. split.
    { exists []. split; [symmetry; apply app_nil_r|]. intros g Hg. inversion Hg. }
    split; [intros n Hn; inversion Hn|]. repeat split. auto.
  - rewrite run_sync_group_list_cons.
    destruct group as [n0|]; cbn [str_field].
    + rewrite (str_truthy_true _ (py_str_nonempty n0)).
      set (f1 := (run (add_group (py_str n0)) f).1).
      destruct (IH f1) as ((added & Hadd & Hfrom) & Hin & Hnd & Hacc & Hpref & Hpend).
      destruct (add_group_keeps_rest f (py_str n0)) as (Ka & _ & Kp & Kq).
      assert (H1 : listGroups f1
                   = if bool_decide (py_str n0 ∈ listGroups f) then listGroups f
                     else (listGroups f ++ [py_str n0])%list)
        by apply listGroups_add_group.
      split; [|split; [|split; [|split; [|split]]]].
      * case_bool_decide as Hmem.
        -- exists added. rewrite Hadd, H1. split; [reflexivity|].
           intros g Hg. destruct (Hfrom g Hg) as (n & Hn & ->).
           exists n. split; [right; exact Hn | reflexivity].
        -- exists (py_str n0 :: added). rewrite Hadd, H1, <- app_assoc.
           split; [reflexivity|]. intros g Hg.
           apply elem_of_cons in Hg as [->|Hg].
           ++ exists n0. split; [left | reflexivity].
           ++ destruct (Hfrom g Hg) as (n & Hn & ->).
              exists n. split; [right; exact Hn | reflexivity].
      * intros n Hn. apply elem_of_cons in Hn as [[= <-]|Hn]; [|auto].
        rewrite Hadd. apply elem_of_app. left. apply add_group_member.
      * intros Hf. apply Hnd. rewrite H1. case_bool_decide as Hmem; [exact Hf|].
        apply NoDup_app. split; [exact Hf|]. split.
        -- intros x Hx Hx'. apply list_elem_of_singleton in Hx'. subst x. auto.
        -- apply NoDup_singleton.
      * intros x. rewrite Hacc. apply Ka.
      * intros x. rewrite Hpref. apply Kp.
      * intros x. rewrite Hpend. apply Kq.
    + cbn [str_truthy].
      destruct (IH f) as ((added & Hadd & Hfrom) & Hin & Hnd & Hrest).
      split; [|split; [|split]].
      * exists added. split; [exact Hadd|]. intros g Hg.
        destruct (Hfrom g Hg) as (n & Hn & ->).
        exists n. split; [right; exact Hn | reflexivity].
      * intros n Hn. apply elem_of_cons in Hn as [Hn|Hn]; [discriminate Hn|auto].
      * exact Hnd.
      * exact Hrest.
Qed.

(** * Message dispatch *)

Section Strip.
Variable W : list (list ascii).
Hypothesis W_nonempty : ∀ w, w ∈ W → w ≠ [].

Lemma find_prefix_Some (l w : list ascii) :
  find (λ w, bool_decide (w `prefix_of` l)) W = Some w →
  w ∈ W ∧ w `prefix_of` l.
Proof.
  intros H. apply find_some in H as [Hin Hp].
  apply bool_decide_eq_true in Hp.
  split; [apply list_elem_of_In, Hin | exact Hp].
Qed.

Lemma find_prefix_None (l : list ascii) :
  find (λ w, bool_decide (w `prefix_of` l)) W = None ↔
  ∀ w, w ∈ W → ¬ w `prefix_of` l.
Proof.
  split.
  - intros H w Hw Hp. apply list_elem_of_In in Hw.
    pose proof (find_none _ _ H w Hw) as Hf. cbn in Hf.
    apply bool_decide_eq_false in Hf. contradiction.
  - intros H. destruct (find _ W) as [w|] eqn:E; [|reflexivity].
    apply find_prefix_Some in E as [Hw Hp]. exfalso. exact (H w Hw Hp).
Qed.

Lemma lstrip_with_suffix (n : nat) (l : list ascii) :
  lstrip_with W n l `suffix_of` l.
Proof.
  revert l. induction n as [|n IH]; intros l; cbn [lstrip_with]; [reflexivity|].
  destruct (find _ W) as [w|]; [|reflexivity].
  etrans; [apply IH|]. apply suffix_drop.
Qed.

Lemma lstrip_with_no_prefix (n : nat) (l : list ascii) :
  (length l ≤ n)%nat → ∀ w, w ∈ W → ¬ w `prefix_of` lstrip_with W n l.
Proof.
  revert l. induction n as [|n IH]; intros l Hlen; cbn [lstrip_with].
  - destruct l; [|cbn in Hlen; lia]. intros w Hw Hp.
    apply prefix_nil_inv in Hp. exact (W_nonempty w Hw Hp).
  - destruct (find _ W) as [w0|] eqn:E.
    + apply find_prefix_Some in E as [Hw0 Hp0]. apply IH.
      pose proof (W_nonempty w0 Hw0) as Hne.
      destruct Hp0 as [k ->]. rewrite length_drop, length_app in *.
      destruct w0; [congruence|]. cbn [length] in *. lia.
    + apply find_prefix_None, E.
Qed.

Lemma lstrip_with_fixed (n : nat) (l : list ascii) :
  (∀ w, w ∈ W → ¬ w `prefix_of` l) → lstrip_with W n l = l.
Proof.
  intros H. destruct n as [|n]; cbn [lstrip_with]; [reflexivity|].
  apply find_prefix_None in H. rewrite H. reflexivity.
Qed.

Lemma lstrip_with_all (n : nat) (l : list ascii) :
  (length l ≤ n)%nat → lstrip_with W n l = [] → l ≠ [] →
  ∃ w, w ∈ W ∧ w `suffix_of` l.
Proof.
  revert l. induction n as [|n IH]; intros l Hlen; cbn [lstrip_with].
  - intros -> Hne. congruence.
  - destruct (find _ W) as [w0|] eqn:E; [|intros -> Hne; congruence].
    apply find_prefix_Some in E as [Hw0 Hp0]. intros Hnil Hne.
    pose proof (W_nonempty w0 Hw0) as Hw0ne.
    destruct Hp0 as [k ->]. rewrite drop_app_length in Hnil.
    destruct k as [|c k].
    + exists w0. split; [exact Hw0|]. rewrite app_nil_r. reflexivity.
    + destruct (IH (c :: k)) as (w & Hw & Hs).
      * rewrite length_app in Hlen. destruct w0; [congruence|].
        cbn [length] in *. lia.
      * exact Hnil.
      * discriminate.
      * exists w. split; [exact Hw|]. apply suffix_app_r, Hs.
Qed.
End Strip.

Lemma WHITESPACE_nonempty (w : list ascii) : w ∈ WHITESPACE → w ≠ [].
Proof.
  revert w. apply Forall_forall. unfold WHITESPACE.
  repeat (apply Forall_cons; split; [discriminate|]). apply Forall_nil_2.
Qed.

Lemma reverse_WHITESPACE_nonempty (w : list ascii) :
  w ∈ reverse <$> WHITESPACE → w ≠ [].
Proof.
  intros Hw. apply list_elem_of_fmap in Hw as (w0 & -> & Hw0).
  intros H. apply (WHITESPACE_nonempty w0 Hw0).
  apply (f_equal reverse) in H. rewrite reverse_involutive in H. exact H.
Qed.

Lemma clean_right_reverse (l : list ascii) :
  clean_right l ↔ ∀ w, w ∈ reverse <$> WHITESPACE → ¬ w `prefix_of` reverse l.
Proof.
  split.
  - intros H w Hw Hp. apply list_elem_of_fmap in Hw as (w0 & -> & Hw0).
    apply (H w0 Hw0). apply suffix_prefix_reverse, Hp.
  - intros H w Hw Hs. apply (H (reverse w)).
    + apply list_elem_of_fmap. eauto.
    + apply suffix_prefix_reverse, Hs.
Qed.

Lemma lstrip_chars_suffix (l : list ascii) : lstrip_chars l `suffix_of` l.
Proof. apply lstrip_with_suffix. Qed.

Lemma lstrip_chars_clean (l : list ascii) : clean_left (lstrip_chars l).
Proof.
  unfold clean_left, lstrip_chars.
  apply lstrip_with_no_prefix; [apply WHITESPACE_nonempty | reflexivity].
Qed.

Lemma lstrip_chars_fixed (l : list ascii) : clean_left l → lstrip_chars l = l.
Proof. unfold clean_left, lstrip_chars. apply lstrip_with_fixed. Qed.

Lemma lstrip_chars_nonempty (l : list ascii) :
  l ≠ [] → clean_right l → lstrip_chars l ≠ [].
Proof.
  intros Hne Hclean Hnil.
  destruct (lstrip_with_all WHITESPACE WHITESPACE_nonempty (length l) l)
    as (w & Hw & Hs); [reflexivity | exact Hnil | exact Hne |].
  exact (Hclean w Hw Hs).
Qed.

Lemma rstrip_chars_prefix (l : list ascii) : rstrip_chars l `prefix_of` l.
Proof.
  unfold rstrip_chars. apply prefix_suffix_reverse.
  rewrite reverse_involutive. apply lstrip_with_suffix.
Qed.

Lemma rstrip_chars_clean (l : list ascii) : clean_right (rstrip_chars l).
Proof.
  apply clean_right_reverse. unfold rstrip_chars. rewrite reverse_involutive.
  apply lstrip_with_no_prefix; [apply reverse_WHITESPACE_nonempty|].
  rewrite length_reverse. reflexivity.
Qed.

Lemma rstrip_chars_fixed (l : list ascii) : clean_right l → rstrip_chars l = l.
Proof.
  intros H. unfold rstrip_chars.
  rewrite lstrip_with_fixed by (apply clean_right_reverse, H).
  apply reverse_involutive.
Qed.

Lemma clean_right_suffix (l k : list ascii) :
  clean_right l → k `suffix_of` l → clean_right k.
Proof. intros H Hk w Hw Hs. apply (H w Hw). etrans; eassumption. Qed.

Lemma strip_chars (s : string) :
  list_ascii_of_string (strip s)
  = rstrip_chars (lstrip_chars (list_ascii_of_string s)).
Proof. unfold strip. apply list_ascii_of_string_of_list_ascii. Qed.

Lemma strip_clean_right (s : string) :
  clean_right (list_ascii_of_string (strip s)).
Proof. rewrite strip_chars. apply rstrip_chars_clean. Qed.

Lemma clean_left_rstrip (l : list ascii) :
  clean_left l → clean_left (rstrip_chars l).
Proof.
  intros H w Hw Hp. apply (H w Hw). etrans; [exact Hp|].
  apply rstrip_chars_prefix.
Qed.

Lemma strip_clean_left (s : string) :
  clean_left (list_ascii_of_string (strip s)).
Proof. rewrite strip_chars. apply clean_left_rstrip, lstrip_chars_clean. Qed.

Lemma strip_fixed (s : string) :
  clean_left (list_ascii_of_string s) → clean_right (list_ascii_of_string s) →
  strip s = s.
Proof.
  intros Hl Hr. unfold strip.
  rewrite (lstrip_chars_fixed _ Hl), (rstrip_chars_fixed _ Hr).
  apply string_of_list_ascii_of_string.
Qed.

Lemma strip_idempotent (s : string) : strip (strip s) = strip s.
Proof. apply strip_fixed; [apply strip_clean_left | apply strip_clean_right]. Qed.

Lemma string_of_list_ascii_nil (l : list ascii) :
  string_of_list_ascii l = "" → l = [].
Proof. destruct l; [reflexivity | discriminate]. Qed.

Lemma space_is_whitespace : [" "%char] ∈ WHITESPACE.
Proof. unfold WHITESPACE. rewrite list_elem_of_In. cbn. tauto. Qed.

(** The argument of a command: what follows the prefix [p], of [n] bytes and
    ending in a space, in a stripped message. *)
Lemma command_argument_clean (message p : string) (n : nat) :
  clean_right (list_ascii_of_string message) →
  [" "%char] `suffix_of` list_ascii_of_string p →
  length (list_ascii_of_string p) = n →
  startswith message p = true →
  strip (slice_from n message) ≠ ""
  ∧ strip (strip (slice_from n message)) = strip (slice_from n message).
Proof.
  intros Hclean Hsp Hn Hstart. split; [|apply strip_idempotent].
  apply bool_decide_eq_true in Hstart. destruct Hstart as [rest Hrest].
  unfold strip, slice_from. rewrite Hrest, <- Hn, drop_app_length.
  rewrite list_ascii_of_string_of_list_ascii.
  assert (Hne : rest ≠ []).
  { intros ->. rewrite app_nil_r in Hrest. rewrite Hrest in Hclean.
    exact (Hclean _ space_is_whitespace Hsp). }
  assert (Hcr : clean_right rest).
  { apply (clean_right_suffix _ _ Hclean). rewrite Hrest. apply suffix_app_r.
    reflexivity. }
  pose proof (lstrip_chars_nonempty rest Hne Hcr) as Hl.
  assert (Hz : clean_right (lstrip_chars rest))
    by (apply (clean_right_suffix _ _ Hcr), lstrip_chars_suffix).
  rewrite (rstrip_chars_fixed _ Hz).
  intros H. apply Hl, string_of_list_ascii_nil, H.
Qed.

(** X18: the argument handed to [_handle_bind] and [_handle_verify] is never
    empty and never carries surrounding whitespace. When the stripped private
    message starts with "/bind ", [handle_private_message] runs
    [_handle_bind] with the stripped rest of the message as user name, and
    that user name is a non-empty string that [strip] leaves as it is; when
    it starts with "/verify " the same holds for the code given to
    [_handle_verify]. *)
Theorem command_arguments_are_clean (f : File) (qq_number message0 : string)
    (r : Z) (t_check t_expire t_request now : Q) :
  (startswith (strip message0) "/bind " = true →
   strip (slice_from 6 (strip message0)) ≠ ""
   ∧ strip (strip (slice_from 6 (strip message0)))
     = strip (slice_from 6 (strip message0))
   ∧ run (handle_private_message qq_number message0 r
            t_check t_expire t_request now) f
     = ((run (_handle_bind qq_number (strip (slice_from 6 (strip message0))) r
                t_check t_expire t_request) f).1,
        HandledBind
          (run (_handle_bind qq_number (strip (slice_from 6 (strip message0))) r
                  t_check t_expire t_request) f).2))
  ∧ (startswith (strip message0) "/bind " = false →
     startswith (strip message0) "/verify " = true →
     strip (slice_from 8 (strip message0)) ≠ ""
     ∧ strip (strip (slice_from 8 (strip message0)))
       = strip (slice_from 8 (strip message0))
     ∧ run (handle_private_message qq_number message0 r
              t_check t_expire t_request now) f
       = ((run (_handle_verify qq_number (strip (slice_from 8 (strip message0)))
                  now) f).1,
          HandledReply
            (run (_handle_verify qq_number
                    (strip (slice_from 8 (strip message0))) now) f).2)).
Proof.
  split.
  - intros Hb.
    destruct (command_argument_clean (strip message0) "/bind " 6) as [H1 H2];
      [apply strip_clean_right | exists (list_ascii_of_string "/bind");
       reflexivity | reflexivity | exact Hb |].
    split; [exact H1|]. split; [exact H2|].
    unfold handle_private_message. rewrite Hb, run_bind. reflexivity.
  - intros Hb Hv.
    destruct (command_argument_clean (strip message0) "/verify " 8) as [H1 H2];
      [apply strip_clean_right | exists (list_ascii_of_string "/verify");
       reflexivity | reflexivity | exact Hv |].
    split; [exact H1|]. split; [exact H2|].
    unfold handle_private_message. rewrite Hb, Hv, run_bind. reflexivity.
Qed.

Lemma command_arguments_are_clean_witness :
  strip (slice_from 6 (strip "  /bind   alice　 ")) ≠ ""
  ∧ strip (strip (slice_from 6 (strip "  /bind   alice　 ")))
    = strip (slice_from 6 (strip "  /bind   alice　 "))
  ∧ run (handle_private_message "Q2" "  /bind   alice　 " 424242 100 100 100 100)
      sample_file
    = ((run (_handle_bind "Q2" (strip (slice_from 6 (strip "  /bind   alice　 ")))
               424242 100 100 100) sample_file).1,
       HandledBind
         (run (_handle_bind "Q2" (strip (slice_from 6 (strip "  /bind   alice　 ")))
                 424242 100 100 100) sample_file).2).
Proof.
  apply (proj1 (command_arguments_are_clean sample_file "Q2"
                  "  /bind   alice　 " 424242 100 100 100 100)).
  reflexivity.
Defined.

(** X19: dispatch looks at the stripped message only, and a group sees
    nothing but [/noti]. Handling a message and handling its stripped form
    are the same program, in private and in a group. A private message whose
    stripped form is not "/bind " or "/verify " followed by something, not
    one of the three help words and not "/noti" is ignored: no reply, file
    untouched; so are a bare "/bind" and a bare "/verify". In a group every
    message whose stripped form is not "/noti", "/bind alice" included, is
    ignored. *)
Theorem dispatch_on_stripped_message (f : File)
    (group_id qq_number message0 : string) (r : Z)
    (t_check t_expire t_request now : Q) :
  handle_private_message qq_number (strip message0) r
    t_check t_expire t_request now
  = handle_private_message qq_number message0 r t_check t_expire t_request now
  ∧ handle_group_message group_id qq_number (strip message0)
    = handle_group_message group_id qq_number message0
  ∧ (startswith (strip message0) "/bind " = false →
     startswith (strip message0) "/verify " = false →
     strip message0 ∉ ["/help"; "帮助"; "?"] →
     strip message0 ≠ "/noti" →
     run (handle_private_message qq_number message0 r
            t_check t_expire t_request now) f
     = (f, HandledNothing))
  ∧ (strip message0 = "/bind" ∨ strip message0 = "/verify" →
     run (handle_private_message qq_number message0 r
            t_check t_expire t_request now) f
     = (f, HandledNothing))
  ∧ (strip message0 ≠ "/noti" →
     run (handle_group_message group_id qq_number message0) f
     = (f, HandledNothing)).
Proof.
  split; [|split; [|split; [|split]]].
  - unfold handle_private_message. rewrite strip_idempotent. reflexivity.
  - unfold handle_group_message. rewrite strip_idempotent. reflexivity.
  - intros Hb Hv Hh Hn. unfold handle_private_message. rewrite Hb, Hv.
    rewrite !bool_decide_eq_false_2 by assumption. reflexivity.
  - intros [H|H]; unfold handle_private_message; rewrite H; reflexivity.
  - intros Hn. unfold handle_group_message.
    rewrite bool_decide_eq_false_2 by assumption. reflexivity.
Qed.

Lemma dispatch_on_stripped_message_witness :
  run (handle_group_message "G1" "Q1" " /bind alice ") sample_file
  = (sample_file, HandledNothing).
Proof.
  apply (dispatch_on_stripped_message sample_file "G1" "Q1" " /bind alice "
           0 0 0 0 0).
  discriminate.
Defined.

Lemma set_binding_data_lookup_cases (q u x a : string) (data : Document) :
  bindings_of (set_binding_data q u data) !! x = Some a →
  (x = q ∧ a = u) ∨ bindings_of data !! x = Some a.
Proof.
  unfold set_binding_data. unfold bindings_of at 1.
  cbn [bindings default from_option id].
  rewrite lookup_insert. case_decide as Hq.
  - intros [= <-]. left. auto.
  - intros H. right.
    match goal with
    | H : context [match ?e with Some _ => _ | None => bindings_of data end] |- _ =>
        destruct e as [o|]; [destruct (str_truthy o)|]
    end; try exact H.
    apply lookup_delete_Some in H. tauto.
Qed.

Lemma usernames_nonempty_verify (f : File) (qq_number code : string) (now : Q) :
  usernames_nonempty f →
  usernames_nonempty (run (verify_binding qq_number code now) f).1.
Proof.
  intros [Hp Hb]. rewrite run_verify_binding.
  destruct (get_pending f qq_number) as [p|] eqn:E; [|split; assumption].
  assert (Hpop : ∀ x p', get_pending (Json (pop_pending qq_number (_load f))) x
                         = Some p' → pb_username p' ≠ "").
  { intros x p' H. unfold get_pending, pop_pending in H. cbn in H.
    apply lookup_delete_Some in H as [_ H]. exact (Hp x p' H). }
  destruct (Qltb (pb_expire_time p) now); [split; [exact Hpop | exact Hb]|].
  destruct (String.eqb (pb_code p) code); [|split; assumption].
  cbn [fst]. split.
  - intros x p'. rewrite get_pending_set_binding. apply Hpop.
  - intros x a. rewrite lookupAccount_json. intros H.
    apply set_binding_data_lookup_cases in H as [[_ ->]|H].
    + exact (Hp qq_number p E).
    + exact (Hb x a H).
Qed.

Lemma usernames_nonempty_handle_bind (f : File) (qq_number username : string)
    (r : Z) (t_check t_expire t_request : Q) :
  username ≠ "" → usernames_nonempty f →
  usernames_nonempty
    (run (_handle_bind qq_number username r t_check t_expire t_request) f).1.
Proof.
  intros Hu [Hp Hb]. rewrite run_handle_bind.
  destruct ((run (check_bind_cooldown qq_number t_check) f).2.1);
    [|split; assumption].
  cbn [fst]. split; [|exact Hb].
  intros x p. destruct (decide (x = qq_number)) as [->|Hx].
  - rewrite get_pending_with_pending. intros [= <-]. exact Hu.
  - rewrite get_pending_with_pending_ne by exact Hx. apply Hp.
Qed.

Lemma usernames_nonempty_set_notification_group (f : File)
    (qq_number group_id : string) :
  usernames_nonempty f →
  usernames_nonempty (run (set_notification_group qq_number group_id) f).1.
Proof. intros [Hp Hb]. split; assumption. Qed.

(** X20: no chat message ever stores an empty user name. If no pending entry
    and no binding of the data file carries the empty user name, the same
    holds after [handle_private_message] and after [handle_group_message],
    whatever the sender, the text, the drawn code and the clock. *)
Theorem chat_never_stores_empty_username (f : File)
    (group_id qq_number message0 : string) (r : Z)
    (t_check t_expire t_request now : Q) :
  usernames_nonempty f →
  usernames_nonempty
    (run (handle_private_message qq_number message0 r
            t_check t_expire t_request now) f).1
  ∧ usernames_nonempty
      (run (handle_group_message group_id qq_number message0) f).1.
Proof.
  intros Hf. split.
  - destruct (startswith (strip message0) "/bind ") eqn:Hb.
    { destruct (command_argument_clean (strip message0) "/bind " 6) as [H1 _];
        [apply strip_clean_right | exists (list_ascii_of_string "/bind");
         reflexivity | reflexivity | exact Hb |].
      unfold handle_private_message. rewrite Hb, run_bind. cbn [run fst].
      apply usernames_nonempty_handle_bind; assumption. }
    destruct (startswith (strip message0) "/verify ") eqn:Hv.
    { unfold handle_private_message. rewrite Hb, Hv, run_bind. cbn [run fst].
      unfold _handle_verify. rewrite run_bind.
      destruct (run (verify_binding qq_number _ now) f) as [f' [ok msg]] eqn:E.
      cbn [run fst snd].
      change f' with (f', (ok, msg)).1. rewrite <- E.
      apply usernames_nonempty_verify, Hf. }
    unfold handle_private_message. rewrite Hb, Hv.
    case_bool_decide; [exact Hf|]. case_bool_decide; [|exact Hf].
    rewrite run_bind, run_handle_noti_private.
    destruct (opt_truthy _); cbn [run fst snd]; [|exact Hf].
    apply usernames_nonempty_set_notification_group, Hf.
  - unfold handle_group_message. case_bool_decide; [|exact Hf].
    rewrite run_bind, run_handle_noti.
    destruct (opt_truthy _); cbn [run fst snd]; [|exact Hf].
    apply usernames_nonempty_set_notification_group, Hf.
Qed.

Lemma chat_never_stores_empty_username_witness :
  usernames_nonempty
    (run (handle_private_message "Q1" "/verify 123456" 0 0 0 0 100)
       sample_file).1
  ∧ usernames_nonempty
      (run (handle_group_message "G1" "Q1" "/verify 123456") sample_file).1.
Proof.
  apply (chat_never_stores_empty_username sample_file "G1" "Q1"
           "/verify 123456" 0 0 0 0 100).
  split.
  - intros x p H. unfold get_pending in H. cbn in H.
    apply lookup_singleton_Some in H as [_ <-]. discriminate.
  - intros x a H. discriminate H.
Defined.

(** * Start-up and the backup scheduler *)

(** X21: [_ensure_file] creates, never overwrites. A missing data file
    becomes the initial document; a file that exists, malformed or not, is
    left as it is; calling it twice is calling it once. Whatever the file,
    the bindings, reverse bindings, preferences, roster and pending entries
    that the methods read are the same before and after. *)
Theorem ensure_file_creates_only (f : File) :
  _ensure_file Missing = Json initial_document
  ∧ (f ≠ Missing → _ensure_file f = f)
  ∧ _ensure_file f ≠ Missing
  ∧ _ensure_file (_ensure_file f) = _ensure_file f
  ∧ bindings_of (_load (_ensure_file f)) = bindings_of (_load f)
  ∧ user_qq_map_of (_load (_ensure_file f)) = user_qq_map_of (_load f)
  ∧ notifications_of (_load (_ensure_file f)) = notifications_of (_load f)
  ∧ groups_of (_load (_ensure_file f)) = groups_of (_load f)
  ∧ pending_bindings_of (_load (_ensure_file f)) = pending_bindings_of (_load f).
Proof.
  split; [reflexivity|]. split; [destruct f; [congruence|reflexivity..]|].
  destruct f; repeat split; discriminate.
Qed.

Section Scheduler.
Variables hour minute : Z.

Lemma scheduler_round_done (last : option Z) (t : Tick) (last' : option Z) :
  scheduler_round hour minute last t = (last', true) →
  last' = Some (tk_date t) ∧ last ≠ Some (tk_date t)
  ∧ tk_hour t = hour ∧ tk_minute t = minute ∧ tk_backup_ok t = true.
Proof.
  unfold scheduler_round.
  case_bool_decide as Hh; cbn [andb]; [|intros [= _ ?]].
  case_bool_decide as Hm; cbn [andb]; [|intros [= _ ?]].
  case_bool_decide as Hl; cbn [negb]; [intros [= _ ?]|].
  destruct (tk_backup_ok t); [|intros [= _ ?]].
  intros [= <-]. auto.
Qed.

Lemma scheduler_round_not_done (last : option Z) (t : Tick) (last' : option Z) :
  scheduler_round hour minute last t = (last', false) → last' = last.
Proof.
  unfold scheduler_round.
  destruct (_ && _ && _); [destruct (tk_backup_ok t)|]; intros [= <-]; auto.
Qed.

Lemma scheduler_loop_invariant (ticks : list Tick) (last : option Z) :
  Sorted Z.le (tk_date <$> ticks) →
  (∀ d t, last = Some d → t ∈ ticks → (d ≤ tk_date t)%Z) →
  NoDup (_scheduler_loop hour minute last ticks)
  ∧ (∀ d, d ∈ _scheduler_loop hour minute last ticks →
          last ≠ Some d
          ∧ ∃ t, t ∈ ticks ∧ tk_date t = d ∧ tk_hour t = hour
                 ∧ tk_minute t = minute ∧ tk_backup_ok t = true).
Proof.
  revert last. induction ticks as [|t rest IH]; intros last Hsorted Hlast.
  - split; [constructor|]. intros d Hd. inversion Hd.
  - cbn [_scheduler_loop].
    assert (Hrest_sorted : Sorted Z.le (tk_date <$> rest)).
    { rewrite fmap_cons in Hsorted. apply Sorted_inv in Hsorted. tauto. }
    assert (Hge : ∀ t', t' ∈ rest → (tk_date t ≤ tk_date t')%Z).
    { rewrite fmap_cons in Hsorted.
      apply Sorted_StronglySorted in Hsorted; [|intros x y z; lia].
      apply StronglySorted_inv in Hsorted as [_ Hall].
      intros t' Ht'. rewrite Forall_forall in Hall. apply Hall.
      apply list_elem_of_fmap. eauto. }
    destruct (scheduler_round hour minute last t) as [last' [|]] eqn:E.
    + apply scheduler_round_done in E as (-> & Hne & Hh & Hm & Hok).
      destruct (IH (Some (tk_date t)) Hrest_sorted) as [Hnd Hin].
      { intros d t' [= <-] Ht'. apply Hge, Ht'. }
      split.
      * constructor; [|exact Hnd]. intros Hd. apply Hin in Hd as [Hd _].
        congruence.
      * intros d Hd. apply elem_of_cons in Hd as [->|Hd].
        -- split; [exact Hne|]. exists t. split; [left|]. auto.
        -- destruct (Hin d Hd) as [_ (t' & Ht' & Hdt & Hrest)]. split.
           ++ intros ->. assert (d < tk_date t)%Z.
              { pose proof (Hlast d t eq_refl ltac:(left)). 
                assert (d ≠ tk_date t) by congruence. lia. }
              pose proof (Hge t' Ht'). lia.
           ++ exists t'. split; [right; exact Ht'|]. auto.
    + apply scheduler_round_not_done in E as ->.
      destruct (IH last Hrest_sorted) as [Hnd Hin].
      { intros d t' Hd Ht'. apply (Hlast d t' Hd). right. exact Ht'. }
      split; [exact Hnd|]. intros d Hd.
      destruct (Hin d Hd) as [Hne (t' & Ht' & Hrest)].
      split; [exact Hne|]. exists t'. split; [right; exact Ht'|]. exact Hrest.
Qed.
End Scheduler.

(** X22: at most one completed backup per day, and only at the configured
    minute. Over any run of rounds whose dates never go back, started with no
    backup done, the dates of the completed backups are pairwise different,
    and each of them is the date of a round that fell in the configured hour
    and minute and whose [run_backup] returned. A round whose [run_backup]
    raises does not mark the day as done, so the next round in the same
    minute tries again. *)
Theorem scheduler_one_backup_per_day (hour minute : Z) (ticks : list Tick) :
  Sorted Z.le (tk_date <$> ticks) →
  NoDup (_scheduler_loop hour minute None ticks)
  ∧ (∀ d, d ∈ _scheduler_loop hour minute None ticks →
          ∃ t, t ∈ ticks ∧ tk_date t = d ∧ tk_hour t = hour
               ∧ tk_minute t = minute ∧ tk_backup_ok t = true)
  ∧ (∀ last t, tk_backup_ok t = false →
               scheduler_round hour minute last t = (last, false)).
Proof.
  intros Hsorted.
  destruct (scheduler_loop_invariant hour minute ticks None Hsorted) as [Hnd Hin].
  { intros d t Hd. discriminate Hd. }
  split; [exact Hnd|]. split.
  - intros d Hd. apply Hin, Hd.
  - intros last t Hfail. unfold scheduler_round. rewrite Hfail.
    destruct (_ && _ && _); reflexivity.
Qed.

Lemma scheduler_one_backup_per_day_witness :
  NoDup (_scheduler_loop 4 0 None
           [ {| tk_date := 1; tk_hour := 4; tk_minute := 0; tk_backup_ok := false |};
             {| tk_date := 1; tk_hour := 4; tk_minute := 0; tk_backup_ok := true |};
             {| tk_date := 1; tk_hour := 4; tk_minute := 0; tk_backup_ok := true |};
             {| tk_date := 2; tk_hour := 4; tk_minute := 0; tk_backup_ok := true |} ])
  ∧ _scheduler_loop 4 0 None
      [ {| tk_date := 1; tk_hour := 4; tk_minute := 0; tk_backup_ok := false |};
        {| tk_date := 1; tk_hour := 4; tk_minute := 0; tk_backup_ok := true |};
        {| tk_date := 1; tk_hour := 4; tk_minute := 0; tk_backup_ok := true |};
        {| tk_date := 2; tk_hour := 4; tk_minute := 0; tk_backup_ok := true |} ]
    = [1%Z; 2%Z].
Proof.
  split; [|reflexivity].
  apply (scheduler_one_backup_per_day 4 0
           [ {| tk_date := 1; tk_hour := 4; tk_minute := 0; tk_backup_ok := false |};
             {| tk_date := 1; tk_hour := 4; tk_minute := 0; tk_backup_ok := true |};
             {| tk_date := 1; tk_hour := 4; tk_minute := 0; tk_backup_ok := true |};
             {| tk_date := 2; tk_hour := 4; tk_minute := 0; tk_backup_ok := true |} ]).
  repeat constructor; cbn; lia.
Defined.

(** * Bounds and soundness *)

Lemma find_some_member (is_member : string → bool) (roster : list string)
    (g : string) :
  find is_member roster = Some g → g ∈ roster ∧ is_member g = true.
Proof.
  intros H. apply find_some in H as [Hin Hm].
  split; [apply list_elem_of_In, Hin | exact Hm].
Qed.

(** X23: [_find_notification_group] only answers groups the membership query
    confirmed. Whenever it returns a group, the identity is a member of that
    group according to [is_user_in_group], and the group is either the
    identity's stored preference or a group of the roster. The stored
    preference is not checked against the roster: a preferred group the bot
    is no longer in is still returned as long as the membership query says
    yes. *)
Theorem routing_returns_confirmed_groups
    (is_user_in_group : string → string → bool) (f : File) (qq_number : string) :
  (∀ g, (run (_find_notification_group is_user_in_group qq_number) f).2 = Some g →
        is_user_in_group g qq_number = true
        ∧ (get_preference f qq_number = Some g ∨ g ∈ listGroups f))
  ∧ (∀ g, get_preference f qq_number = Some g → g ≠ "" → g ≠ "private" →
          is_user_in_group g qq_number = true → g ∉ listGroups f →
          (run (_find_notification_group is_user_in_group qq_number) f).2
          = Some g).
Proof.
  rewrite run_find_notification_group. cbn [snd]. unfold resolveChannel. split.
  - intros g. case_bool_decide as Hp; [discriminate|].
    destruct (get_preference f qq_number) as [p|] eqn:E.
    + destruct (str_truthy p && is_user_in_group p qq_number) eqn:Hc.
      * intros [= <-]. apply andb_true_iff in Hc as [_ Hin].
        split; [exact Hin | left; reflexivity].
      * intros H. apply find_some_member in H as [Hr Hm].
        split; [exact Hm | right; exact Hr].
    + intros H. apply find_some_member in H as [Hr Hm].
      split; [exact Hm | right; exact Hr].
  - intros g -> Hne Hp Hin _. rewrite bool_decide_eq_false_2 by congruence.
    rewrite (str_truthy_true _ Hne), Hin. reflexivity.
Qed.

Lemma routing_returns_confirmed_groups_witness :
  (run (_find_notification_group (λ _ _, true) "Q1")
     (run (remove_group "G1") routing_file).1).2
  = Some "G1".
Proof.
  apply (proj2 (routing_returns_confirmed_groups (λ _ _, true)
                  (run (remove_group "G1") routing_file).1 "Q1") "G1").
  - reflexivity.
  - discriminate.
  - discriminate.
  - reflexivity.
  - intros H. apply list_elem_of_singleton in H. discriminate H.
Defined.

Lemma py_int_bounds (x : Q) (hi : Z) :
  (0 < x)%Q → (x <= inject_Z hi)%Q → (0 ≤ py_int x ≤ hi)%Z.
Proof.
  destruct x as [n d]. unfold py_int, Qlt, Qle. cbn. intros Hpos Hle.
  assert (Hn : (0 < n)%Z) by lia.
  split.
  - apply Z.quot_pos; lia.
  - rewrite Z.quot_div_nonneg by lia. apply Z.div_le_upper_bound; lia.
Qed.

(** X24: the remaining seconds reported by a refused bind request. When the
    cooldown check refuses and the clock has not gone back behind the entry's
    request time, the number of seconds it reports is between 0 and 60; it is
    0 during the last second of the cooldown, although the request is still
    refused. *)
Theorem cooldown_remaining_bounds (f : File) (qq_number : string) (now : Q)
    (p : Pending) :
  get_pending f qq_number = Some p →
  (requested_at p <= now)%Q →
  (now < requested_at p + BIND_COOLDOWN)%Q →
  (run (check_bind_cooldown qq_number now) f).2.1 = false
  ∧ (0 ≤ (run (check_bind_cooldown qq_number now) f).2.2 ≤ 60)%Z
  ∧ ((requested_at p + 59 < now)%Q →
     (run (check_bind_cooldown qq_number now) f).2.2 = 0%Z).
Proof.
  intros Hp Hge Hlt. rewrite run_check_bind_cooldown, Hp.
  assert (E : Qltb (now - requested_at p) BIND_COOLDOWN = true)
    by (apply Qltb_lt, elapsed_lt_cooldown, Hlt).
  rewrite E. cbn [fst snd]. split; [reflexivity|]. split.
  - apply py_int_bounds; unfold BIND_COOLDOWN in *.
    + lra.
    + change (inject_Z 60) with 60%Q. lra.
  - intros Hlast.
    assert (H1 : (0 ≤ py_int (BIND_COOLDOWN - (now - requested_at p)) ≤ 0)%Z).
    { destruct (BIND_COOLDOWN - (now - requested_at p))%Q as [n d] eqn:Ex.
      assert (Hpos : (0 < n # d)%Q) by (rewrite <- Ex; unfold BIND_COOLDOWN in *; lra).
      assert (Hlt1 : (n # d < 1)%Q) by (rewrite <- Ex; unfold BIND_COOLDOWN in *; lra).
      unfold py_int, Qlt in *. cbn in *.
      rewrite Z.quot_small by lia. lia. }
    lia.
Qed.

Lemma cooldown_remaining_bounds_witness :
  (run (check_bind_cooldown "Q1" (119 # 2)) sample_file).2.1 = false
  ∧ (0 ≤ (run (check_bind_cooldown "Q1" (119 # 2)) sample_file).2.2 ≤ 60)%Z
  ∧ ((requested_at sample_pending + 59 < 119 # 2)%Q →
     (run (check_bind_cooldown "Q1" (119 # 2)) sample_file).2.2 = 0%Z).
Proof.
  apply (cooldown_remaining_bounds sample_file "Q1" (119 # 2) sample_pending).
  - reflexivity.
  - intros H. discriminate H.
  - reflexivity.
Defined.
